(** * WebUIDValidator (web_uid_validator.js): a shallow embedding

    The development follows the JavaScript source function by function.

    - JavaScript strings are sequences of UTF-16 code units ([jsstring]).
    - JavaScript numbers are modelled by their value: [NaN], the two
      infinities, or a finite rational.  Every IEEE-754 double is such a
      value; the two zeros are identified, which no operation used by the
      validator can tell apart ([===], [>=], [<=], [isNaN], [ToString]).
    - Values are data: the primitive types and ordinary objects holding
      string-keyed data properties (what an object literal or [JSON.parse]
      builds).  Objects live in a heap and are referred to by location, so
      that aliasing and copying are visible.
    - Code runs in a state-and-exception monad: the state carries the heap
      and the console, an abrupt completion carries the thrown error. *)

From Stdlib Require Import ZArith NArith QArith List String Ascii Lia.
From Stdlib Require Import DecimalPos DecimalN.
From stdpp Require Import base option list gmap.

Local Open Scope Z_scope.

(* ===================================================================== *)
(** ** Strings *)
(* ===================================================================== *)

Module JsString.

(** A string value: its UTF-16 code units. *)
Abbreviation jsstring := (list N).

(** Code points of a UTF-8 byte sequence (used for the literals of the
    source file, which is UTF-8 encoded). *)
Fixpoint utf8_decode (bs : list N) : list N :=
  match bs with
  | [] => []
  | b0 :: r0 =>
      if (b0 <? 128)%N then b0 :: utf8_decode r0
      else match r0 with
      | [] => []
      | b1 :: r1 =>
          if (b0 <? 224)%N
          then ((b0 mod 32) * 64 + b1 mod 64)%N :: utf8_decode r1
          else match r1 with
          | [] => []
          | b2 :: r2 =>
              if (b0 <? 240)%N
              then ((b0 mod 16) * 4096 + (b1 mod 64) * 64 + b2 mod 64)%N
                     :: utf8_decode r2
              else match r2 with
              | [] => []
              | b3 :: r3 =>
                  ((b0 mod 8) * 262144 + (b1 mod 64) * 4096
                   + (b2 mod 64) * 64 + b3 mod 64)%N :: utf8_decode r3
              end
          end
      end
  end.

(** UTF-16 encoding of one code point. *)
Definition utf16_encode (cp : N) : list N :=
  if (cp <? 65536)%N then [cp]
  else [(55296 + (cp - 65536) / 1024)%N; (56320 + (cp - 65536) mod 1024)%N].

Fixpoint bytes_of (s : string) : list N :=
  match s with
  | EmptyString => []
  | String a r => N_of_ascii a :: bytes_of r
  end.

(** The string value denoted by a literal of the source text. *)
Definition js (s : string) : jsstring :=
  flat_map utf16_encode (utf8_decode (bytes_of s)).

Definition code_unit_eqb (a b : N) : bool := (a =? b)%N.

Fixpoint eqb (s t : jsstring) : bool :=
  match s, t with
  | [], [] => true
  | a :: s', b :: t' => code_unit_eqb a b && eqb s' t'
  | _, _ => false
  end.

(** WhiteSpace and LineTerminator code points (ECMA-262, 12.2 and 12.3):
    TAB, VT, FF, SP, NBSP, ZWNBSP, the Unicode space separators, LF, CR,
    LS and PS. *)
Definition is_whitespace (c : N) : bool :=
  ((9 <=? c) && (c <=? 13) || (c =? 32) || (c =? 160) || (c =? 5760)
   || (8192 <=? c) && (c <=? 8202) || (c =? 8232) || (c =? 8233)
   || (c =? 8239) || (c =? 8287) || (c =? 12288) || (c =? 65279))%N.

(** A code unit that trimming does not remove. *)
Definition visible (c : N) : Prop := is_whitespace c = false.

(** TrimString(S, start). *)
Fixpoint trim_start (s : jsstring) : jsstring :=
  match s with
  | [] => []
  | c :: r => if is_whitespace c then trim_start r else s
  end.

(** TrimString(S, end). *)
Definition trim_end (s : jsstring) : jsstring := rev (trim_start (rev s)).

(** String.prototype.trim. *)
Definition trim (s : jsstring) : jsstring := trim_end (trim_start s).

(** Decimal digits of a natural number, most significant first. *)
Fixpoint digits_of_uint (d : Decimal.uint) : jsstring :=
  match d with
  | Decimal.Nil => []
  | Decimal.D0 r => 48%N :: digits_of_uint r
  | Decimal.D1 r => 49%N :: digits_of_uint r
  | Decimal.D2 r => 50%N :: digits_of_uint r
  | Decimal.D3 r => 51%N :: digits_of_uint r
  | Decimal.D4 r => 52%N :: digits_of_uint r
  | Decimal.D5 r => 53%N :: digits_of_uint r
  | Decimal.D6 r => 54%N :: digits_of_uint r
  | Decimal.D7 r => 55%N :: digits_of_uint r
  | Decimal.D8 r => 56%N :: digits_of_uint r
  | Decimal.D9 r => 57%N :: digits_of_uint r
  end.

Definition decimal_of_N (n : N) : jsstring := digits_of_uint (N.to_uint n).

(** Decimal representation of an integer: a minus sign when negative. *)
Definition decimal_of_Z (z : Z) : jsstring :=
  match z with
  | Z0 => [48%N]
  | Zpos p => decimal_of_N (Npos p)
  | Zneg p => 45%N :: decimal_of_N (Npos p)
  end.

End JsString.
Import JsString.

(* ===================================================================== *)
(** ** Numbers *)
(* ===================================================================== *)

Module JsNumber.

Inductive number : Type :=
| NaN
| PosInfinity
| NegInfinity
| Finite (q : Q).

Definition of_Z (z : Z) : number := Finite (inject_Z z).

(** Number::equal, the [===] of two numbers. *)
Definition equal (x y : number) : bool :=
  match x, y with
  | NaN, _ | _, NaN => false
  | PosInfinity, PosInfinity => true
  | NegInfinity, NegInfinity => true
  | Finite a, Finite b => Qeq_bool a b
  | _, _ => false
  end.

(** Number::lessThan; [None] is the result "undefined" that a NaN
    operand produces. *)
Definition lessThan (x y : number) : option bool :=
  match x, y with
  | NaN, _ | _, NaN => None
  | PosInfinity, _ => Some false
  | _, PosInfinity => Some true
  | _, NegInfinity => Some false
  | NegInfinity, _ => Some true
  | Finite a, Finite b =>
      Some (match Qcompare a b with Lt => true | _ => false end)
  end.

(** [x >= y]: false when [x < y] is true or undefined. *)
Definition ge (x y : number) : bool :=
  match lessThan x y with Some false => true | _ => false end.

(** [x <= y]: false when [y < x] is true or undefined. *)
Definition le (x y : number) : bool :=
  match lessThan y x with Some false => true | _ => false end.

(** The global [isNaN], applied to a number. *)
Definition isNaN (x : number) : bool :=
  match x with NaN => true | _ => false end.

(** The number value of a mathematical integer: the nearest double, ties
    to the even significand, an infinity from 2^1024 on. *)
Definition round_to_double (z : Z) : number :=
  let a := Z.abs z in
  if a <? 2 ^ 53 then of_Z z
  else
    let e := Z.log2 a - 52 in
    let m := a / 2 ^ e in
    let r := a mod 2 ^ e in
    let half := 2 ^ (e - 1) in
    let m' := if (half <? r) || ((half =? r) && Z.odd m) then m + 1 else m in
    let v := m' * 2 ^ e in
    if 2 ^ 1024 <=? v
    then (if z <? 0 then NegInfinity else PosInfinity)
    else of_Z (Z.sgn z * v).

(** Is the number an integer, and which one. *)
Definition to_Z (x : number) : option Z :=
  match x with
  | Finite q =>
      let q' := Qred q in
      if (Zpos (Qden q') =? 1) then Some (Qnum q') else None
  | _ => None
  end.

End JsNumber.
Import JsNumber.

(* ===================================================================== *)
(** ** parseInt on strings *)
(* ===================================================================== *)

Module ParseInt.

(** Value of a code unit as a digit: 0-9, then a-z or A-Z for 10-35. *)
Definition digit_value (c : N) : option Z :=
  if ((48 <=? c) && (c <=? 57))%N then Some (Z.of_N c - 48)
  else if ((97 <=? c) && (c <=? 122))%N then Some (Z.of_N c - 87)
  else if ((65 <=? c) && (c <=? 90))%N then Some (Z.of_N c - 55)
  else None.

Definition is_radix_digit (R : Z) (c : N) : bool :=
  match digit_value c with
  | Some d => d <? R
  | None => false
  end.

(** The digits of the longest prefix of [s] made of radix-[R] digits. *)
Fixpoint radix_digits (R : Z) (s : jsstring) : list Z :=
  match s with
  | [] => []
  | c :: r =>
      match digit_value c with
      | Some d => if d <? R then d :: radix_digits R r else []
      | None => []
      end
  end.

(** The integer that a digit sequence denotes in radix [R]. *)
Definition math_int (R : Z) (ds : list Z) : Z :=
  fold_left (fun acc d => acc * R + d) ds 0.

Definition has_hex_prefix (s : jsstring) : bool :=
  match s with
  | 48%N :: x :: _ => ((x =? 120) || (x =? 88))%N
  | _ => false
  end.

(** Steps 2 to 13 of parseInt(string, radix) on the string [inputString]:
    the signed mathematical integer read, [None] when there is no digit
    (or the radix is out of range). *)
Definition StringToMathInt (inputString : jsstring) (radix : Z) : option Z :=
  let str := trim_start inputString in
  let sign := match str with 45%N :: _ => -1 | _ => 1 end in
  let str := match str with
             | c :: r => if ((c =? 43) || (c =? 45))%N then r else str
             | [] => str
             end in
  if negb (radix =? 0) && ((radix <? 2) || (36 <? radix)) then None
  else
    let stripPrefix := (radix =? 0) || (radix =? 16) in
    let R := if radix =? 0 then 10 else radix in
    let strip := stripPrefix && has_hex_prefix str in
    let str := if strip then drop 2 str else str in
    let R := if strip then 16 else R in
    match radix_digits R str with
    | [] => None
    | ds => Some (sign * math_int R ds)
    end.

(** parseInt on a string argument: the number value of the integer read.
    (ECMA-262 lets an implementation replace the decimal digits after the
    20th by zeros before converting; the conversion here is the exact one.) *)
Definition parseInt_string (inputString : jsstring) (radix : Z) : number :=
  match StringToMathInt inputString radix with
  | None => NaN
  | Some z => round_to_double z
  end.

End ParseInt.
Import ParseInt.

(* ===================================================================== *)
(** ** Values, heap, console and the monad of computations *)
(* ===================================================================== *)

Module Js.

Abbreviation loc := positive.

Inductive value : Type :=
| VUndefined
| VNull
| VBoolean (b : bool)
| VNumber (n : number)
| VString (s : jsstring)
| VSymbol (id : positive)
| VBigInt (z : Z)
| VObject (l : loc).

(** The results of [typeof] on these values. *)
Inductive jstype : Type :=
| TUndefined | TObject | TBoolean | TNumber | TString | TSymbol | TBigInt.

#[export] Instance jstype_eq_dec : EqDecision jstype.
Proof. solve_decision. Defined.

Definition typeof (v : value) : jstype :=
  match v with
  | VUndefined => TUndefined
  | VNull => TObject
  | VBoolean _ => TBoolean
  | VNumber _ => TNumber
  | VString _ => TString
  | VSymbol _ => TSymbol
  | VBigInt _ => TBigInt
  | VObject _ => TObject
  end.

(** The string that [typeof] evaluates to. *)
Definition typeof_name (t : jstype) : jsstring :=
  match t with
  | TUndefined => js "undefined"
  | TObject => js "object"
  | TBoolean => js "boolean"
  | TNumber => js "number"
  | TString => js "string"
  | TSymbol => js "symbol"
  | TBigInt => js "bigint"
  end.

(** [x === y] (IsStrictlyEqual). *)
Definition strict_equals (x y : value) : bool :=
  match x, y with
  | VUndefined, VUndefined => true
  | VNull, VNull => true
  | VBoolean a, VBoolean b => Bool.eqb a b
  | VNumber a, VNumber b => JsNumber.equal a b
  | VString a, VString b => JsString.eqb a b
  | VSymbol a, VSymbol b => Pos.eqb a b
  | VBigInt a, VBigInt b => Z.eqb a b
  | VObject a, VObject b => Pos.eqb a b
  | _, _ => false
  end.

(** The TypeErrors that the operations below can raise. *)
Inductive type_error : Type :=
| InOperandNotObject (key : jsstring) (operand : value)
| PropertyOfNullish (key : jsstring) (base : value)
| SymbolToString
| NoPrimitiveValue.

Inductive error : Type :=
| TypeError (reason : type_error).

(** What the host engine decides: the digits of a number that is not an
    integer below 2^53 in magnitude (Number::toString takes the shortest
    digits that read back as the same binary64, which needs the neighbours
    of the value), and the wording of error messages, which ECMA-262 leaves
    to the implementation. *)
Class Engine : Type := {
  Number_toString_other : Q -> jsstring;
  TypeError_message : type_error -> jsstring
}.

(** An object: its own enumerable data properties.  Its prototype is
    [Object.prototype], untouched. *)
Abbreviation object := (gmap jsstring value).

Inductive log_level : Type := LevelWarn | LevelError.

Inductive logged : Type :=
| LogValue (v : value)
| LogError (e : error).

Record world : Type := World {
  heap : gmap loc (gmap jsstring value);
  console : list (log_level * list logged)
}.

(** Completion records: normal with a value, or abrupt with the thrown
    error. *)
Inductive completion (A : Type) : Type :=
| Normal (a : A)
| Throw (e : error).
Arguments Normal {A} a.
Arguments Throw {A} e.

(** Computations over a state [S]; the state reached is kept when the
    computation throws, as the effects before a [throw] persist. *)
Definition M (S A : Type) : Type := S -> completion A * S.

Definition ret {S A} (a : A) : M S A := fun s => (Normal a, s).

Definition bind {S A B} (m : M S A) (k : A -> M S B) : M S B :=
  fun s =>
    match m s with
    | (Normal a, s') => k a s'
    | (Throw e, s') => (Throw e, s')
    end.

Definition throw {S A} (e : error) : M S A := fun s => (Throw e, s).

(** [try { m } catch (error) { handler error }]. *)
Definition try_catch {S A} (m : M S A) (handler : error -> M S A) : M S A :=
  fun s =>
    match m s with
    | (Normal a, s') => (Normal a, s')
    | (Throw e, s') => handler e s'
    end.

Definition get {S} : M S S := fun s => (Normal s, s).
Definition modify {S} (f : S -> S) : M S unit := fun s => (Normal tt, f s).

(** A computation on the world, run inside one that also has locals. *)
Definition lift {L A} (m : M world A) : M (L * world) A :=
  fun s =>
    match m (snd s) with
    | (c, w') => (c, (fst s, w'))
    end.

(** Run [m] with local state starting at [l]; yield the final locals. *)
Definition with_local {L} (l : L) (m : M (L * world) unit) : M world L :=
  fun w =>
    match m (l, w) with
    | (Normal _, (l', w')) => (Normal l', w')
    | (Throw e, (_, w')) => (Throw e, w')
    end.

Abbreviation JS := (M world).

(** The completion of a computation, and the state it leaves. *)
Definition eval {S A} (m : M S A) (s : S) : completion A := fst (m s).
Definition exec {S A} (m : M S A) (s : S) : S := snd (m s).

End Js.
Import Js.

Declare Scope js_scope.
Delimit Scope js_scope with js.
Notation "x <- m ;; k" := (bind m (fun x => k))
  (at level 100, m at next level, right associativity) : js_scope.
Notation "m ;;; k" := (bind m (fun _ => k))
  (at level 100, right associativity) : js_scope.
Local Open Scope js_scope.

(* ===================================================================== *)
(** ** Operations of the language that the validator uses *)
(* ===================================================================== *)

Module Runtime.
Section WithEngine.
Context {E : Engine}.

(** Number::toString(x, 10).  Below 2^53 in magnitude every integer is a
    binary64 whose neighbours are at most 1 away, so that the shortest
    digits that read back as it are its own decimal digits.  From 2^53 on
    the digits are the shortest ones, padded with zeros (2^56 is shown as
    72057594037927940): they are the engine's. *)
Definition Number_toString (x : number) : jsstring :=
  match x with
  | NaN => js "NaN"
  | PosInfinity => js "Infinity"
  | NegInfinity => js "-Infinity"
  | Finite q =>
      match to_Z x with
      | Some z => if Z.abs z <? 2 ^ 53 then decimal_of_Z z
                  else Number_toString_other q
      | None => Number_toString_other q
      end
  end.

(** The own property keys of the object at [l] ([None] for a location
    that holds nothing, which a well-formed world does not contain). *)
Definition own_properties (w : world) (l : loc) : gmap jsstring value :=
  default ∅ (heap w !! l).

(** ToString.  An ordinary object answers through the inherited
    [Object.prototype.toString]; an own data property named [toString]
    shadows it with something that is not callable, and then neither
    [toString] nor [valueOf] yields a primitive. *)
Definition ToString (v : value) : JS jsstring :=
  match v with
  | VUndefined => ret (js "undefined")
  | VNull => ret (js "null")
  | VBoolean b => ret (if b then js "true" else js "false")
  | VNumber n => ret (Number_toString n)
  | VString s => ret s
  | VSymbol _ => throw (TypeError SymbolToString)
  | VBigInt z => ret (decimal_of_Z z)
  | VObject l =>
      w <- get ;;
      match own_properties w l !! js "toString" with
      | Some _ => throw (TypeError NoPrimitiveValue)
      | None => ret (js "[object Object]")
      end
  end.

(** The global [parseInt(string, radix)]. *)
Definition parseInt (string : value) (radix : Z) : JS number :=
  inputString <- ToString string ;;
  ret (parseInt_string inputString radix).

(** [key in v], for a key that no built-in prototype defines. *)
Definition HasProperty (key : jsstring) (v : value) : JS bool :=
  match v with
  | VObject l =>
      w <- get ;;
      ret (bool_decide (is_Some (own_properties w l !! key)))
  | _ => throw (TypeError (InOperandNotObject key v))
  end.

(** [v.key], for a key that no built-in prototype defines. *)
Definition Get (v : value) (key : jsstring) : JS value :=
  match v with
  | VObject l =>
      w <- get ;;
      ret (default VUndefined (own_properties w l !! key))
  | VUndefined | VNull => throw (TypeError (PropertyOfNullish key v))
  | _ => ret VUndefined
  end.

(** The own enumerable properties that [{ ...v }] copies: those of an
    object, the indexed characters of a string, none otherwise. *)
Definition enumerable_own_properties (w : world) (v : value)
  : gmap jsstring value :=
  match v with
  | VObject l => own_properties w l
  | VString s =>
      list_to_map
        (imap (fun i c => (decimal_of_N (N.of_nat i), VString [c])) s)
  | _ => ∅
  end.

(** The object literal [{ ...v }]: a new object holding a copy of the
    properties. *)
Definition object_spread (v : value) : JS value :=
  fun w =>
    let l := fresh (dom (heap w)) in
    (Normal (VObject l),
     World (<[l := enumerable_own_properties w v]> (heap w)) (console w)).

Definition console_warn (args : list logged) : JS unit :=
  modify (fun w => World (heap w) (console w ++ [(LevelWarn, args)])).

Definition console_error (args : list logged) : JS unit :=
  modify (fun w => World (heap w) (console w ++ [(LevelError, args)])).

(** [error.message]. *)
Definition error_message (e : error) : jsstring :=
  match e with
  | TypeError reason => TypeError_message reason
  end.

End WithEngine.
End Runtime.
Import Runtime.

(* ===================================================================== *)
(** ** class WebUIDValidator *)
(* ===================================================================== *)

Module WebUIDValidator.

(** [static DEFAULT_BOT_UID = 12345]. *)
Definition DEFAULT_BOT_UID : number := of_Z 12345.

(** The value returned by [validateConfiguration]; it is built in a local
    variable, which the function mutates until it returns it. *)
Record ValidationResult : Type := {
  isValid : bool;
  errors : list jsstring;
  warnings : list jsstring;
  config : value
}.

(** [result.errors.push(msg)], [result.warnings.push(msg)] and
    [result.isValid = b] as updates of the record. *)
Definition add_error (msg : jsstring) (r : ValidationResult)
  : ValidationResult :=
  {| isValid := isValid r; errors := errors r ++ [msg];
     warnings := warnings r; config := config r |}.

Definition add_warning (msg : jsstring) (r : ValidationResult)
  : ValidationResult :=
  {| isValid := isValid r; errors := errors r;
     warnings := warnings r ++ [msg]; config := config r |}.

Definition assign_isValid (b : bool) (r : ValidationResult)
  : ValidationResult :=
  {| isValid := b; errors := errors r;
     warnings := warnings r; config := config r |}.

Definition errors_push {W} (msg : jsstring) : M (ValidationResult * W) unit :=
  modify (fun s => (add_error msg (fst s), snd s)).

Definition warnings_push {W} (msg : jsstring) : M (ValidationResult * W) unit :=
  modify (fun s => (add_warning msg (fst s), snd s)).

Definition set_isValid {W} (b : bool) : M (ValidationResult * W) unit :=
  modify (fun s => (assign_isValid b (fst s), snd s)).

Section WithEngine.
Context {E : Engine}.

(** The [try] block of [isBotUser]. *)
Definition isBotUser_try (uid : value) : JS bool :=
  if bool_decide (typeof uid = TNumber) then
    ret (strict_equals uid (VNumber DEFAULT_BOT_UID))
  else if bool_decide (typeof uid = TString) then
    try_catch
      (uidInt <- parseInt uid 10 ;;
       ret (negb (isNaN uidInt)
            && strict_equals (VNumber uidInt) (VNumber DEFAULT_BOT_UID)))
      (fun error =>
         console_warn
           [LogValue (VString (js "[UID_VALIDATOR] 字符串UID转换失败:"));
            LogValue uid; LogError error] ;;;
         ret false)
  else
    console_warn
      [LogValue (VString (js "[UID_VALIDATOR] 不支持的UID类型:"));
       LogValue (VString (typeof_name (typeof uid))); LogValue uid] ;;;
    ret false.

Definition isBotUser (uid : value) : JS bool :=
  try_catch
    (isBotUser_try uid)
    (fun error =>
       console_error
         [LogValue (VString (js "[UID_VALIDATOR] Bot用户检查异常:"));
          LogError error] ;;;
       ret false).

(** The [try] block of [isValidWebSDKUID].  The two [typeof] tests that
    follow the first one are the branches of the [match], which also
    gives access to the string or the number; [of_Z (2 ^ 32 - 1)] is
    [Math.pow(2, 32) - 1]. *)
Definition isValidWebSDKUID_try (uid : value) : JS bool :=
  if negb (bool_decide (typeof uid = TNumber))
     && negb (bool_decide (typeof uid = TString)) then
    ret false
  else
    match uid with
    | VString s =>
        ret ((0 <? length s)%nat && (0 <? length (trim s))%nat)
    | VNumber n =>
        ret (JsNumber.ge n (of_Z 1) && JsNumber.le n (of_Z (2 ^ 32 - 1)))
    | _ => ret false
    end.

Definition isValidWebSDKUID (uid : value) : JS bool :=
  try_catch
    (isValidWebSDKUID_try uid)
    (fun error =>
       console_error
         [LogValue (VString (js "[UID_VALIDATOR] Web SDK UID验证异常:"));
          LogError error] ;;;
       ret false).

(** The [try] block of [compareUIDs]. *)
Definition compareUIDs_try (uid1 uid2 : value) : JS bool :=
  if bool_decide (typeof uid1 = typeof uid2) then
    ret (strict_equals uid1 uid2)
  else
    num1 <- match uid1 with
            | VNumber n => ret n
            | _ => parseInt uid1 10
            end ;;
    num2 <- match uid2 with
            | VNumber n => ret n
            | _ => parseInt uid2 10
            end ;;
    if isNaN num1 || isNaN num2 then ret false
    else ret (strict_equals (VNumber num1) (VNumber num2)).

Definition compareUIDs (uid1 uid2 : value) : JS bool :=
  try_catch
    (compareUIDs_try uid1 uid2)
    (fun error =>
       console_error
         [LogValue (VString (js "[UID_VALIDATOR] UID比较异常:"));
          LogError error] ;;;
       ret false).

Definition getDefaultBotUID : JS value := ret (VNumber DEFAULT_BOT_UID).

(** First statement of the [try] block of [validateConfiguration]:
    the check of [botUid]. *)
Definition validateConfiguration_botUid (config : value)
  : M (ValidationResult * world) unit :=
  hasBotUid <- lift (HasProperty (js "botUid") config) ;;
  if hasBotUid then
    botUid <- lift (Get config (js "botUid")) ;;
    valid <- lift (isValidWebSDKUID botUid) ;;
    if negb valid then
      shown <- lift (v <- Get config (js "botUid") ;; ToString v) ;;
      errors_push (js "无效的botUid: " ++ shown) ;;;
      set_isValid false
    else
      botUid <- lift (Get config (js "botUid")) ;;
      bot <- lift (isBotUser botUid) ;;
      if negb bot then
        shown <- lift (v <- Get config (js "botUid") ;; ToString v) ;;
        expected <- lift (ToString (VNumber DEFAULT_BOT_UID)) ;;
        warnings_push
          (js "botUid不是预期的Bot UID: " ++ shown
           ++ js " (预期: " ++ expected ++ js ")")
      else ret tt
  else ret tt.

(** Second statement of the [try] block: the check of [uid]. *)
Definition validateConfiguration_uid (config : value)
  : M (ValidationResult * world) unit :=
  hasUid <- lift (HasProperty (js "uid") config) ;;
  if hasUid then
    uid <- lift (Get config (js "uid")) ;;
    valid <- lift (isValidWebSDKUID uid) ;;
    if negb valid then
      shown <- lift (v <- Get config (js "uid") ;; ToString v) ;;
      errors_push (js "无效的uid: " ++ shown) ;;;
      set_isValid false
    else ret tt
  else ret tt.

(** The [try] block of [validateConfiguration]. *)
Definition validateConfiguration_try (config : value)
  : M (ValidationResult * world) unit :=
  validateConfiguration_botUid config ;;;
  validateConfiguration_uid config.

(** The [catch] block of [validateConfiguration]. *)
Definition validateConfiguration_catch (error : error)
  : M (ValidationResult * world) unit :=
  errors_push (js "配置验证异常: " ++ error_message error) ;;;
  set_isValid false.

(** The object that [result] is initialised with. *)
Definition initial_result (copy : value) : ValidationResult :=
  {| isValid := true; errors := []; warnings := []; config := copy |}.

Definition validateConfiguration (config : value) : JS ValidationResult :=
  copy <- object_spread config ;;
  with_local (initial_result copy)
    (try_catch (validateConfiguration_try config)
               validateConfiguration_catch).

(** The result after the [catch] block ran on the error [e], from the
    result [r] that the [try] block had reached. *)
Definition caught (r : ValidationResult) (e : error) : ValidationResult :=
  assign_isValid false
    (add_error (js "配置验证异常: " ++ error_message e) r).

(** The warning about a [botUid] that is shown as [shown]. *)
Definition mismatch_warning (shown : jsstring) : jsstring :=
  js "botUid不是预期的Bot UID: " ++ shown
  ++ js " (预期: " ++ js "12345" ++ js ")".

End WithEngine.
End WebUIDValidator.
Import WebUIDValidator.

(* ===================================================================== *)
(** ** logUIDInfo *)
(* ===================================================================== *)

Module Diagnostics.

(** What [console.log] has written: one list of arguments per call.  It is
    kept apart from [console], which records the warnings and the errors. *)
Abbreviation output := (list (list logged)).

Section WithEngine.
Context {E : Engine}.

Definition console_log (args : list logged) : M (output * world) unit :=
  modify (fun s => (fst s ++ [args], snd s)).

(** An object literal whose properties, in the order of the source, have
    been evaluated to [properties]: a new object. *)
Definition object_literal (properties : gmap jsstring value) : JS value :=
  fun w =>
    let l := fresh (dom (heap w)) in
    (Normal (VObject l), World (<[l := properties]> (heap w)) (console w)).

(** [logUIDInfo(context, uid, additionalInfo = {})].  The default value
    replaces an argument that is [undefined]; the first argument of
    [console.log], the template, is evaluated before the object literal;
    in the literal the spread comes last, so that a property of
    [additionalInfo] replaces the property of the same name before it.
    The function has no [try] and returns nothing. *)
Definition logUIDInfo (context uid additionalInfo : value)
  : M (output * world) value :=
  additionalInfo <- match additionalInfo with
                    | VUndefined => lift (object_literal ∅)
                    | _ => ret additionalInfo
                    end ;;
  shown <- lift (ToString context) ;;
  bot <- lift (isBotUser uid) ;;
  valid <- lift (isValidWebSDKUID uid) ;;
  info <- lift (w <- get ;;
                object_literal
                  (enumerable_own_properties w additionalInfo
                   ∪ {[ js "uid" := uid;
                        js "type" := VString (typeof_name (typeof uid));
                        js "isBot" := VBoolean bot;
                        js "isValid" := VBoolean valid ]})) ;;
  console_log
    [LogValue (VString (js "[UID_VALIDATOR] " ++ shown ++ js ":"));
     LogValue info] ;;;
  ret VUndefined.

End WithEngine.
End Diagnostics.
Import Diagnostics.

(* ===================================================================== *)
(** ** Notions used to state further properties *)
(* ===================================================================== *)

(** The number that compareUIDs makes of an operand when the two types
    differ: [typeof uid === "number" ? uid : parseInt(uid, 10)]. *)
Definition compareUIDs_operand {E : Engine} (uid : value) : JS number :=
  match uid with
  | VNumber n => ret n
  | _ => parseInt uid 10
  end.

Module MoreSamples.

(** A world whose heap holds, at location 1, [{ uid: 5, botUid: 12345 }]. *)
Definition world_uid5_bot : world :=
  World {[ 1%positive :=
             {[ js "uid" := VNumber (of_Z 5);
                js "botUid" := VNumber (of_Z 12345) ]} ]} [].

(** A world whose heap holds, at location 1, [{ botUid: 0, uid: "" }]. *)
Definition world_bot0 : world :=
  World {[ 1%positive :=
             {[ js "botUid" := VNumber (of_Z 0);
                js "uid" := VString [] ]} ]} [].

(** A world whose heap holds, at location 1,
    [{ botUid: Symbol(), uid: -1 }]. *)
Definition world_bot_symbol : world :=
  World {[ 1%positive :=
             {[ js "botUid" := VSymbol 1;
                js "uid" := VNumber (of_Z (-1)) ]} ]} [].

(** A world whose heap holds, at location 1, [{ uid: -1 }]. *)
Definition world_uidm1 : world :=
  World {[ 1%positive := {[ js "uid" := VNumber (of_Z (-1)) ]} ]} [].

(** A world whose heap holds, at location 1, [{ uid: 7, room: "a" }]. *)
Definition world_info : world :=
  World {[ 1%positive :=
             {[ js "uid" := VNumber (of_Z 7);
                js "room" := VString (js "a") ]} ]} [].

End MoreSamples.

(** What a check does to the result under construction: nothing, one
    warning more, or one error more with the flag lowered; a check that
    throws has done nothing. *)
Inductive check_step (r : ValidationResult)
  : completion unit -> ValidationResult -> Prop :=
| step_nothing : check_step r (Normal tt) r
| step_warning (msg : jsstring) :
    check_step r (Normal tt) (add_warning msg r)
| step_error (msg : jsstring) :
    check_step r (Normal tt) (assign_isValid false (add_error msg r))
| step_throw (e : error) : check_step r (Throw e) r.

(* ===================================================================== *)
(** ** The kinds of UID of the specification, and sample inputs *)
(* ===================================================================== *)

(** The data model of the specification: a UID is an integer or a string;
    every other value, a number that is not an integer included, is of
    neither kind. *)
Inductive uid_kind : Type :=
| KInteger (z : Z)
| KString (s : jsstring)
| KOther.

Definition classify (v : value) : uid_kind :=
  match v with
  | VNumber n =>
      match to_Z n with
      | Some z => KInteger z
      | None => KOther
      end
  | VString s => KString s
  | _ => KOther
  end.

(** compareUIDs as the specification words it: strict equality within a
    kind; across kinds both sides become numbers by the base-10 parse, a
    NaN on either side gives false.  The parse of an integer is the
    integer itself ([parseInt_of_shown_integer] below: the digits shown for
    it read back as it). *)
Definition coerce_spec (k : uid_kind) : number :=
  match k with
  | KInteger z => of_Z z
  | KString s => parseInt_string s 10
  | KOther => NaN
  end.

Definition compareUIDs_spec (k1 k2 : uid_kind) : bool :=
  match k1, k2 with
  | KInteger a, KInteger b => bool_decide (a = b)
  | KString s, KString t => bool_decide (s = t)
  | _, _ =>
      if isNaN (coerce_spec k1) || isNaN (coerce_spec k2) then false
      else JsNumber.equal (coerce_spec k1) (coerce_spec k2)
  end.

(** [m] leaves the observation [f] of the state as it found it, whether it
    completes normally or throws. *)
Definition preserves {S A X : Type} (f : S -> X) (m : M S A) : Prop :=
  forall s, f (snd (m s)) = f s.

(** What the body of validateConfiguration must leave alone: the [config]
    field of the result under construction, and the heap. *)
Definition frame (s : ValidationResult * world)
  : value * gmap loc (gmap jsstring value) :=
  (config (fst s), heap (snd s)).

Module Samples.

(** An engine to run the examples on.  Its two fields are arbitrary: no
    example shows a number outside the integers, and none depends on the
    wording of a message. *)
Definition engine : Engine := {|
  Number_toString_other := fun _ => js "?";
  TypeError_message := fun _ => js "TypeError"
|}.

Definition empty_world : world := World ∅ [].

(** A world whose heap holds, at location 1, [{ botUid: 999, uid: -1 }]. *)
Definition world_bot999_uidm1 : world :=
  World {[ 1%positive :=
             {[ js "botUid" := VNumber (of_Z 999);
                js "uid" := VNumber (of_Z (-1)) ]} ]} [].

(** A world whose heap holds, at location 1, [{ botUid: 999 }]. *)
Definition world_bot999 : world :=
  World {[ 1%positive := {[ js "botUid" := VNumber (of_Z 999) ]} ]} [].

(** A world whose heap holds, at location 1, [{ uid: Symbol() }]. *)
Definition world_uid_symbol : world :=
  World {[ 1%positive := {[ js "uid" := VSymbol 1 ]} ]} [].

End Samples.

(* ===================================================================== *)
(** ** Facts about numbers *)
(* ===================================================================== *)

Section NumberFacts.

Lemma to_Z_Some (n : number) (z : Z) :
  to_Z n = Some z -> exists q, n = Finite q /\ q == inject_Z z.
Proof.
  destruct n as [| | |q]; cbn [to_Z]; try discriminate.
  destruct (Z.eqb_spec (Zpos (Qden (Qred q))) 1) as [Hden|]; [|discriminate].
  intros [= <-]. exists q. split; [reflexivity|].
  rewrite <- (Qred_correct q) at 1.
  unfold Qeq. simpl. rewrite Hden. lia.
Qed.

Lemma Qred_inject_Z (z : Z) : Qred (inject_Z z) = inject_Z z.
Proof.
  unfold Qred, inject_Z.
  generalize (Z.ggcd_gcd z 1) (Z.ggcd_correct_divisors z 1).
  destruct (Z.ggcd z 1) as (g, (nn, dd)); simpl.
  rewrite Z.gcd_1_r. intros -> [Hn Hd].
  assert (dd = 1) as -> by lia. assert (nn = z) as -> by lia.
  reflexivity.
Qed.

Lemma to_Z_Qeq (q : Q) (z : Z) : q == inject_Z z -> to_Z (Finite q) = Some z.
Proof.
  intros Hq. unfold to_Z.
  rewrite (Qred_complete _ _ Hq), Qred_inject_Z.
  reflexivity.
Qed.

Lemma to_Z_of_Z (z : Z) : to_Z (of_Z z) = Some z.
Proof. apply to_Z_Qeq. reflexivity. Qed.

Lemma Qcompare_inject_Z (a b : Z) :
  Qcompare (inject_Z a) (inject_Z b) = Z.compare a b.
Proof. unfold Qcompare. simpl. rewrite !Z.mul_1_r. reflexivity. Qed.

Lemma Qcompare_integer (q : Q) (a b : Z) :
  q == inject_Z a -> Qcompare q (inject_Z b) = Z.compare a b.
Proof.
  intros Hq. rewrite <- Qcompare_inject_Z.
  apply Qcompare_comp; [exact Hq | reflexivity].
Qed.

Lemma Qcompare_integer_r (q : Q) (a b : Z) :
  q == inject_Z a -> Qcompare (inject_Z b) q = Z.compare b a.
Proof.
  intros Hq. rewrite <- Qcompare_inject_Z.
  apply Qcompare_comp; [reflexivity | exact Hq].
Qed.

Lemma equal_integers (p q : Q) (a b : Z) :
  p == inject_Z a -> q == inject_Z b ->
  JsNumber.equal (Finite p) (Finite q) = bool_decide (a = b).
Proof.
  intros Hp Hq. simpl.
  destruct (Qeq_bool p q) eqn:E.
  - apply Qeq_bool_iff in E. rewrite Hp, Hq in E.
    unfold Qeq in E. simpl in E.
    symmetry. apply bool_decide_eq_true. lia.
  - symmetry. apply bool_decide_eq_false. intros ->.
    assert (Qeq_bool p q = true) as E'; [|congruence].
    apply Qeq_bool_iff. rewrite Hp, Hq. reflexivity.
Qed.

Lemma equal_of_Z (a b : Z) :
  JsNumber.equal (of_Z a) (of_Z b) = bool_decide (a = b).
Proof. apply equal_integers; reflexivity. Qed.

(** [equal] sees a finite number through its value only. *)
Lemma equal_Qeq_l (p q : Q) (n : number) :
  p == q -> JsNumber.equal (Finite p) n = JsNumber.equal (Finite q) n.
Proof.
  intros Hpq. destruct n as [| | |r]; simpl; try reflexivity.
  destruct (Qeq_bool p r) eqn:E1, (Qeq_bool q r) eqn:E2; try reflexivity.
  - apply Qeq_bool_iff in E1. rewrite Hpq in E1.
    apply Qeq_bool_iff in E1. congruence.
  - apply Qeq_bool_iff in E2. rewrite <- Hpq in E2.
    apply Qeq_bool_iff in E2. congruence.
Qed.

Lemma equal_sym (x y : number) : JsNumber.equal x y = JsNumber.equal y x.
Proof.
  destruct x as [| | |p], y as [| | |q]; simpl; try reflexivity.
  destruct (Qeq_bool p q) eqn:E1, (Qeq_bool q p) eqn:E2; try reflexivity.
  - apply Qeq_bool_iff in E1. symmetry in E1.
    apply Qeq_bool_iff in E1. congruence.
  - apply Qeq_bool_iff in E2. symmetry in E2.
    apply Qeq_bool_iff in E2. congruence.
Qed.

Lemma round_to_double_small (z : Z) :
  Z.abs z < 2 ^ 53 -> round_to_double z = of_Z z.
Proof.
  intros Hz. unfold round_to_double.
  destruct (Z.ltb_spec (Z.abs z) (2 ^ 53)); [reflexivity | lia].
Qed.

(** From 2^53 on, rounding yields an infinity or an integer of magnitude
    at least 2^53. *)
Lemma round_to_double_large (z : Z) :
  2 ^ 53 <= Z.abs z ->
  round_to_double z = PosInfinity \/ round_to_double z = NegInfinity
  \/ exists v, round_to_double z = of_Z v /\ 2 ^ 53 <= Z.abs v.
Proof.
  intros Hz. unfold round_to_double.
  destruct (Z.ltb_spec (Z.abs z) (2 ^ 53)) as [|_]; [lia|].
  set (a := Z.abs z) in *.
  set (e := Z.log2 a - 52).
  set (m := a / 2 ^ e).
  match goal with
  | |- context [if ?c then m + 1 else m] =>
      set (m' := if c then m + 1 else m)
  end.
  destruct (Z.leb_spec (2 ^ 1024) (m' * 2 ^ e)) as [_|_].
  { destruct (z <? 0); auto. }
  right. right. eexists. split; [reflexivity|].
  assert (0 < a) as Ha by (assert (0 < 2 ^ 53) by (apply Z.pow_pos_nonneg; lia); lia).
  assert (53 <= Z.log2 a) as Hlog by (apply Z.log2_le_pow2; assumption).
  assert (1 <= e) as He by (unfold e; lia).
  assert (2 ^ 52 <= m) as Hm.
  { unfold m. pose proof (Z.log2_spec a Ha) as [Hlo _].
    replace (Z.log2 a) with (52 + e) in Hlo by (unfold e; lia).
    rewrite Z.pow_add_r in Hlo by lia.
    apply Z.div_le_lower_bound; [apply Z.pow_pos_nonneg; lia | lia]. }
  assert (m <= m') as Hm' by (unfold m'; case (_ || _); lia).
  assert (2 <= 2 ^ e) as H2e.
  { change 2 with (2 ^ 1) at 1. apply Z.pow_le_mono_r; lia. }
  assert (2 ^ 53 <= m' * 2 ^ e) as Hv.
  { change (2 ^ 53) with (2 ^ 52 * 2). 
    assert (0 < 2 ^ 52) by (apply Z.pow_pos_nonneg; lia). nia. }
  unfold a in *. destruct z; simpl Z.sgn; lia.
Qed.

(** Rounding an integer never produces NaN. *)
Lemma round_to_double_not_NaN (z : Z) : isNaN (round_to_double z) = false.
Proof.
  unfold round_to_double.
  destruct (_ <? _); [reflexivity|].
  destruct (_ <=? _); [destruct (_ <? _)|]; reflexivity.
Qed.

(** An integer below 2^53 in magnitude is the rounding of itself only. *)
Lemma round_to_double_equal (z k : Z) :
  Z.abs k < 2 ^ 53 ->
  JsNumber.equal (round_to_double z) (of_Z k) = bool_decide (z = k).
Proof.
  intros Hk.
  destruct (Z.lt_ge_cases (Z.abs z) (2 ^ 53)) as [Hz|Hz].
  - rewrite round_to_double_small by assumption. apply equal_of_Z.
  - destruct (round_to_double_large z Hz) as [-> | [-> | (v & -> & Hv)]].
    + simpl. symmetry. apply bool_decide_eq_false. lia.
    + simpl. symmetry. apply bool_decide_eq_false. lia.
    + rewrite equal_of_Z.
      rewrite !bool_decide_eq_false_2 by lia. reflexivity.
Qed.

End NumberFacts.

(* ===================================================================== *)
(** ** Facts about strings and parsing *)
(* ===================================================================== *)

Section StringFacts.

Lemma eqb_bool_decide (s t : jsstring) :
  JsString.eqb s t = bool_decide (s = t).
Proof.
  revert t. induction s as [|a s IH]; intros [|b t]; simpl; try reflexivity.
  rewrite IH. unfold code_unit_eqb.
  destruct (N.eqb_spec a b) as [->|Hab]; simpl.
  - destruct (decide (s = t)) as [->|Hst].
    + rewrite !bool_decide_eq_true_2; reflexivity.
    + rewrite !bool_decide_eq_false_2; congruence.
  - rewrite bool_decide_eq_false_2; congruence.
Qed.

Lemma trim_start_nonempty (s : jsstring) :
  trim_start s <> [] <-> Exists visible s.
Proof.
  induction s as [|c s IH]; simpl.
  - split; [congruence | intros H; inversion H].
  - destruct (is_whitespace c) eqn:Hc.
    + rewrite IH. split; [apply Exists_cons_tl|].
      intros H. inversion H as [? ? Hv|]; subst; [|assumption].
      unfold visible in Hv. congruence.
    + split; [intros _; apply Exists_cons_hd; exact Hc | congruence].
Qed.

Lemma trim_start_Exists (s : jsstring) :
  Exists visible (trim_start s) <-> Exists visible s.
Proof.
  induction s as [|c s IH]; simpl; [reflexivity|].
  destruct (is_whitespace c) eqn:Hc; [|reflexivity].
  rewrite IH. split; [apply Exists_cons_tl|].
  intros H. inversion H as [? ? Hv|]; subst; [|assumption].
  unfold visible in Hv. congruence.
Qed.

Lemma Exists_visible_rev (s : jsstring) :
  Exists visible (rev s) <-> Exists visible s.
Proof.
  rewrite !List.Exists_exists.
  split; intros (c & Hin & Hc); exists c; split; try assumption;
    [apply in_rev | apply in_rev in Hin]; assumption.
Qed.

(** The trimmed form is not empty exactly when some code unit of the
    string is not white space. *)
Lemma trim_nonempty (s : jsstring) :
  (0 < length (trim s))%nat <-> Exists visible s.
Proof.
  unfold trim, trim_end. rewrite length_rev.
  rewrite <- trim_start_Exists, <- Exists_visible_rev, <- trim_start_nonempty.
  destruct (trim_start (rev (trim_start s))); simpl; split;
    first [lia | congruence].
Qed.

Lemma trim_start_app (p t : jsstring) :
  trim_start p <> [] -> trim_start (p ++ t) = trim_start p ++ t.
Proof.
  induction p as [|c p IH]; simpl; [congruence|].
  destruct (is_whitespace c); [exact IH | reflexivity].
Qed.

Lemma radix_digits_stop (R : Z) (q : jsstring) (c : N) (t : jsstring) :
  is_radix_digit R c = false ->
  radix_digits R (q ++ c :: t) = radix_digits R q.
Proof.
  intros Hc. induction q as [|a q IH]; simpl.
  - unfold is_radix_digit in Hc.
    destruct (digit_value c) as [d|]; [rewrite Hc|]; reflexivity.
  - destruct (digit_value a) as [d|]; [|reflexivity].
    destruct (d <? R); [rewrite IH|]; reflexivity.
Qed.

(** parseInt with radix 10: white space, a sign, then decimal digits. *)
Lemma StringToMathInt_10 (s : jsstring) :
  StringToMathInt s 10 =
  let str := trim_start s in
  let sign := match str with 45%N :: _ => -1 | _ => 1 end in
  let str := match str with
             | c :: r => if ((c =? 43) || (c =? 45))%N then r else str
             | [] => str
             end in
  match radix_digits 10 str with
  | [] => None
  | ds => Some (sign * math_int 10 ds)
  end.
Proof. reflexivity. Qed.

(** What follows the first character that is not a digit is ignored. *)
Lemma StringToMathInt_lenient (p : jsstring) (c : N) (t : jsstring) (z : Z) :
  StringToMathInt p 10 = Some z ->
  is_radix_digit 10 c = false ->
  StringToMathInt (p ++ c :: t) 10 = Some z.
Proof.
  rewrite !StringToMathInt_10. intros Hp Hc.
  destruct (trim_start p) as [|a r] eqn:Htrim; [discriminate Hp|].
  rewrite trim_start_app by (rewrite Htrim; discriminate).
  rewrite Htrim. cbn zeta in *. 
  change ((a :: r) ++ c :: t) with (a :: (r ++ c :: t)).
  cbn iota in *.
  destruct ((a =? 43) || (a =? 45))%N.
  - rewrite radix_digits_stop by assumption. exact Hp.
  - change (a :: (r ++ c :: t)) with ((a :: r) ++ c :: t).
    rewrite radix_digits_stop by assumption. exact Hp.
Qed.

End StringFacts.

(* ===================================================================== *)
(** ** Printing an integer and parsing it back *)
(* ===================================================================== *)

Section DecimalRoundTrip.

Lemma radix_digits_decimal (c : N) (r : jsstring) :
  (48 <= c <= 57)%N ->
  radix_digits 10 (c :: r) = (Z.of_N c - 48) :: radix_digits 10 r.
Proof.
  intros Hc. cbn [radix_digits]. unfold digit_value.
  destruct (N.leb_spec 48 c); [|lia].
  destruct (N.leb_spec c 57); [|lia].
  cbn [andb].
  destruct (Z.ltb_spec (Z.of_N c - 48) 10); [reflexivity | lia].
Qed.

Lemma math_int_digits_acc (d : Decimal.uint) (acc : positive) :
  fold_left (fun a x => a * 10 + x) (radix_digits 10 (digits_of_uint d))
            (Zpos acc)
  = Zpos (Pos.of_uint_acc d acc).
Proof.
  revert acc.
  induction d; intros acc; cbn [digits_of_uint Pos.of_uint_acc];
    [reflexivity | ..];
    rewrite radix_digits_decimal by lia; cbn [fold_left];
    rewrite <- IHd; f_equal; lia.
Qed.

Lemma math_int_digits (d : Decimal.uint) :
  math_int 10 (radix_digits 10 (digits_of_uint d)) = Z.of_N (Pos.of_uint d).
Proof.
  unfold math_int.
  induction d; cbn [digits_of_uint Pos.of_uint];
    [reflexivity | ..];
    rewrite radix_digits_decimal by lia; cbn [fold_left];
    first [exact IHd | apply (math_int_digits_acc d)].
Qed.

(** The digits printed for a natural number read back as that number. *)
Lemma StringToMathInt_decimal_of_N (n : N) :
  StringToMathInt (decimal_of_N n) 10 = Some (Z.of_N n).
Proof.
  rewrite StringToMathInt_10. unfold decimal_of_N.
  pose proof (math_int_digits (N.to_uint n)) as Hval.
  change (Pos.of_uint (N.to_uint n)) with (N.of_uint (N.to_uint n)) in Hval.
  rewrite DecimalN.Unsigned.of_to in Hval.
  assert (N.to_uint n <> Decimal.Nil) as Hnil.
  { destruct n; [discriminate | apply DecimalPos.Unsigned.to_uint_nonnil]. }
  destruct (N.to_uint n) as [|d|d|d|d|d|d|d|d|d|d]; [congruence | ..];
    cbn [digits_of_uint] in *;
    cbn -[math_int radix_digits Z.mul Z.of_N Z.sub];
    rewrite radix_digits_decimal in * by lia;
    cbn iota; rewrite Hval; f_equal; lia.
Qed.

Lemma StringToMathInt_decimal_of_Z (z : Z) :
  StringToMathInt (decimal_of_Z z) 10 = Some z.
Proof.
  destruct z as [|p|p]; [reflexivity | apply (StringToMathInt_decimal_of_N (Npos p)) |].
  pose proof (StringToMathInt_decimal_of_N (Npos p)) as Hp.
  rewrite StringToMathInt_10 in *. unfold decimal_of_Z.
  assert (exists c r, decimal_of_N (N.pos p) = c :: r /\ (48 <= c <= 57)%N)
    as (c & r & Hcr & Hc).
  { unfold decimal_of_N.
    pose proof (DecimalPos.Unsigned.to_uint_nonnil p) as Hnil.
    cbn [N.to_uint]. destruct (Pos.to_uint p); [congruence | ..];
      cbn [digits_of_uint]; eexists _, _; (split; [reflexivity | lia]). }
  rewrite Hcr in *.
  assert (is_whitespace c = false) as Hws.
  { unfold is_whitespace.
    repeat match goal with
           | |- context [(?a <=? ?b)%N] => destruct (N.leb_spec a b); try lia
           | |- context [(?a =? ?b)%N] => destruct (N.eqb_spec a b); try lia
           end; reflexivity. }
  cbn [trim_start] in *. rewrite Hws in Hp.
  change (is_whitespace 45) with false. cbn iota.
  assert (c <> 45 /\ c <> 43)%N as [H45 H43] by lia.
  destruct (N.eqb_spec c 43); [congruence|].
  destruct (N.eqb_spec c 45); [congruence|].
  cbn [orb] in Hp.
  change ((45 =? 43)%N || (45 =? 45)%N) with true. cbn iota.
  assert (match c with 45%N => -1 | _ => 1 end = 1) as Hsign.
  { destruct c as [|[q|q|]]; try reflexivity; 
    repeat (destruct q as [q|q|]; try reflexivity); lia. }
  cbn zeta in Hp. rewrite Hsign in Hp.
  destruct (radix_digits 10 (c :: r)); [discriminate|].
  injection Hp as Hp. f_equal. lia.
Qed.

(** Coercing an integer "by base-10 parse" gives the integer itself, as
    long as the integer is a double: the string shown for it reads back
    as it. *)
Lemma parseInt_of_shown_integer {E : Engine} (z : Z) :
  Z.abs z < 2 ^ 53 ->
  parseInt_string (Number_toString (of_Z z)) 10 = of_Z z.
Proof.
  intros Hz. unfold Number_toString, of_Z at 1.
  change (Finite (inject_Z z)) with (of_Z z). rewrite to_Z_of_Z.
  destruct (Z.ltb_spec (Z.abs z) (2 ^ 53)); [|lia].
  unfold parseInt_string. rewrite StringToMathInt_decimal_of_Z.
  apply round_to_double_small. exact Hz.
Qed.

End DecimalRoundTrip.

(* ===================================================================== *)
(** ** The three predicates, case by case *)
(* ===================================================================== *)

Section Predicates.
Context {E : Engine}.

Lemma isValidWebSDKUID_number (n : number) (w : world) :
  isValidWebSDKUID (VNumber n) w =
  (Normal (JsNumber.ge n (of_Z 1) && JsNumber.le n (of_Z (2 ^ 32 - 1))), w).
Proof. reflexivity. Qed.

Lemma isValidWebSDKUID_string (s : jsstring) (w : world) :
  isValidWebSDKUID (VString s) w =
  (Normal ((0 <? length s)%nat && (0 <? length (trim s))%nat), w).
Proof. reflexivity. Qed.

Lemma isValidWebSDKUID_other (v : value) (w : world) :
  typeof v <> TNumber -> typeof v <> TString ->
  isValidWebSDKUID v w = (Normal false, w).
Proof. destruct v; simpl; intros; first [reflexivity | congruence]. Qed.

(** Validity of an integer-valued number is a comparison of integers. *)
Lemma in_range_integer (q : Q) (u : Z) :
  q == inject_Z u ->
  JsNumber.ge (Finite q) (of_Z 1) && JsNumber.le (Finite q) (of_Z (2 ^ 32 - 1))
  = bool_decide (1 <= u <= 2 ^ 32 - 1).
Proof.
  intros Hq. unfold JsNumber.ge, JsNumber.le, of_Z, lessThan.
  rewrite (Qcompare_integer q u 1 Hq).
  rewrite (Qcompare_integer_r q u (2 ^ 32 - 1) Hq).
  destruct (Z.compare_spec u 1), (Z.compare_spec (2 ^ 32 - 1) u); simpl;
    symmetry; first [apply bool_decide_eq_true; lia
                    | apply bool_decide_eq_false; lia].
Qed.

Lemma isBotUser_number (n : number) (w : world) :
  isBotUser (VNumber n) w = (Normal (JsNumber.equal n DEFAULT_BOT_UID), w).
Proof. reflexivity. Qed.

Lemma isBotUser_string (s : jsstring) (w : world) :
  isBotUser (VString s) w =
  (Normal (negb (isNaN (parseInt_string s 10))
           && JsNumber.equal (parseInt_string s 10) DEFAULT_BOT_UID), w).
Proof. reflexivity. Qed.

Lemma isBotUser_other (v : value) (w : world) :
  typeof v <> TNumber -> typeof v <> TString ->
  exists w', isBotUser v w = (Normal false, w') /\ heap w' = heap w.
Proof.
  destruct v; simpl; intros; try congruence;
    (eexists; split; [reflexivity | reflexivity]).
Qed.

(** On a string, the bot test reads an integer and compares it. *)
Lemma isBotUser_string_parse (s : jsstring) :
  negb (isNaN (parseInt_string s 10))
  && JsNumber.equal (parseInt_string s 10) DEFAULT_BOT_UID
  = bool_decide (StringToMathInt s 10 = Some 12345).
Proof.
  unfold parseInt_string, DEFAULT_BOT_UID.
  destruct (StringToMathInt s 10) as [k|]; simpl.
  - rewrite round_to_double_not_NaN. simpl.
    rewrite round_to_double_equal by (simpl; lia).
    destruct (decide (k = 12345)) as [->|Hk].
    + rewrite !bool_decide_eq_true_2; reflexivity.
    + rewrite !bool_decide_eq_false_2; congruence.
  - reflexivity.
Qed.

Lemma compareUIDs_strings (s t : jsstring) (w : world) :
  compareUIDs (VString s) (VString t) w = (Normal (JsString.eqb s t), w).
Proof. reflexivity. Qed.

Lemma compareUIDs_numbers (m n : number) (w : world) :
  compareUIDs (VNumber m) (VNumber n) w = (Normal (JsNumber.equal m n), w).
Proof. reflexivity. Qed.

Lemma compareUIDs_number_string (n : number) (s : jsstring) (w : world) :
  compareUIDs (VNumber n) (VString s) w =
  (Normal (if isNaN n || isNaN (parseInt_string s 10) then false
           else JsNumber.equal n (parseInt_string s 10)), w).
Proof.
  unfold compareUIDs, compareUIDs_try, try_catch, bind, ret. simpl.
  destruct (isNaN n || isNaN (parseInt_string s 10)); reflexivity.
Qed.

Lemma compareUIDs_string_number (s : jsstring) (n : number) (w : world) :
  compareUIDs (VString s) (VNumber n) w =
  (Normal (if isNaN (parseInt_string s 10) || isNaN n then false
           else JsNumber.equal (parseInt_string s 10) n), w).
Proof.
  unfold compareUIDs, compareUIDs_try, try_catch, bind, ret. simpl.
  destruct (isNaN (parseInt_string s 10) || isNaN n); reflexivity.
Qed.

End Predicates.

(* ===================================================================== *)
(** ** compareUIDs *)
(* ===================================================================== *)

Section CompareUIDs.
Context {E : Engine}.

Lemma compareUIDs_kinds (w : world) (u1 u2 : value) :
  classify u1 <> KOther -> classify u2 <> KOther ->
  compareUIDs u1 u2 w
  = (Normal (compareUIDs_spec (classify u1) (classify u2)), w).
Proof.
  intros H1 H2.
  destruct u1 as [| | |n1|s1| | |], u2 as [| | |n2|s2| | |];
    simpl in H1, H2; try congruence.
  - destruct (to_Z n1) as [z1|] eqn:E1; [|congruence].
    destruct (to_Z n2) as [z2|] eqn:E2; [|congruence].
    destruct (to_Z_Some _ _ E1) as (q1 & -> & Hq1).
    destruct (to_Z_Some _ _ E2) as (q2 & -> & Hq2).
    rewrite compareUIDs_numbers. cbn [classify]. rewrite E1, E2.
    cbn [compareUIDs_spec]. rewrite (equal_integers q1 q2 z1 z2); auto.
  - destruct (to_Z n1) as [z1|] eqn:E1; [|congruence].
    destruct (to_Z_Some _ _ E1) as (q1 & -> & Hq1).
    rewrite compareUIDs_number_string. cbn [classify]. rewrite E1.
    cbn [compareUIDs_spec coerce_spec]. unfold of_Z at 1. cbn [isNaN].
    rewrite (equal_Qeq_l q1 (inject_Z z1)) by assumption. reflexivity.
  - destruct (to_Z n2) as [z2|] eqn:E2; [|congruence].
    destruct (to_Z_Some _ _ E2) as (q2 & -> & Hq2).
    rewrite compareUIDs_string_number. cbn [classify]. rewrite E2.
    cbn [compareUIDs_spec coerce_spec]. unfold of_Z at 1. cbn [isNaN].
    rewrite (equal_sym _ (Finite q2)), (equal_sym _ (of_Z z2)).
    rewrite (equal_Qeq_l q2 (inject_Z z2)) by assumption. reflexivity.
  - rewrite compareUIDs_strings, eqb_bool_decide. reflexivity.
Qed.

(** C1.  On two UIDs of the same kind (two strings, two integers)
    compareUIDs is strict equality of the values; on an integer and a
    string it compares the integer with the base-10 parse of the string
    and is false when the parse is NaN ([compareUIDs_spec]).  And:
    compareUIDs(12345, "12345") = true, compareUIDs(12345, 12345) = true,
    compareUIDs("12345", "12346") = false, compareUIDs("abc", 1) = false. *)
Theorem compareUIDs_by_kind (w : world) :
  (forall u1 u2 : value,
      classify u1 <> KOther -> classify u2 <> KOther ->
      compareUIDs u1 u2 w
      = (Normal (compareUIDs_spec (classify u1) (classify u2)), w))
  /\ (forall s t : jsstring,
        compareUIDs (VString s) (VString t) w
        = (Normal (bool_decide (s = t)), w))
  /\ (forall a b : Z,
        compareUIDs (VNumber (of_Z a)) (VNumber (of_Z b)) w
        = (Normal (bool_decide (a = b)), w))
  /\ (forall (a : Z) (s : jsstring),
        compareUIDs (VNumber (of_Z a)) (VString s) w
        = (Normal (match StringToMathInt s 10 with
                   | None => false
                   | Some k => JsNumber.equal (of_Z a) (round_to_double k)
                   end), w))
  /\ compareUIDs (VNumber (of_Z 12345)) (VString (js "12345")) w
     = (Normal true, w)
  /\ compareUIDs (VNumber (of_Z 12345)) (VNumber (of_Z 12345)) w
     = (Normal true, w)
  /\ compareUIDs (VString (js "12345")) (VString (js "12346")) w
     = (Normal false, w)
  /\ compareUIDs (VString (js "abc")) (VNumber (of_Z 1)) w
     = (Normal false, w).
Proof.
  split; [intros; apply compareUIDs_kinds; assumption|].
  split; [intros; rewrite compareUIDs_strings, eqb_bool_decide; reflexivity|].
  split; [intros; rewrite compareUIDs_numbers, equal_of_Z; reflexivity|].
  split.
  { intros a s. rewrite compareUIDs_number_string.
    unfold parseInt_string.
    destruct (StringToMathInt s 10) as [k|]; [|reflexivity].
    cbn [of_Z isNaN orb]. rewrite round_to_double_not_NaN. reflexivity. }
  repeat split; vm_compute; reflexivity.
Qed.

(** C10.  compareUIDs is not transitive: with a = "012345", b = 12345 and
    c = "12345", a and b compare equal, b and c compare equal, a and c do
    not. *)
Theorem compareUIDs_not_transitive (w : world) :
  exists a b c : value,
    a = VString (js "012345") /\ b = VNumber (of_Z 12345)
    /\ c = VString (js "12345")
    /\ compareUIDs a b w = (Normal true, w)
    /\ compareUIDs b c w = (Normal true, w)
    /\ compareUIDs a c w = (Normal false, w).
Proof.
  eexists _, _, _. repeat split; vm_compute; reflexivity.
Qed.

End CompareUIDs.

(** An instance of C1: the integer 12345 against the string "12345abc". *)
Lemma compareUIDs_by_kind_witness :
  classify (VNumber (of_Z 12345)) <> KOther
  /\ classify (VString (js "12345abc")) <> KOther
  /\ compareUIDs (E := Samples.engine)
       (VNumber (of_Z 12345)) (VString (js "12345abc")) Samples.empty_world
     = (Normal true, Samples.empty_world).
Proof.
  assert (classify (VNumber (of_Z 12345)) <> KOther) as H1
    by (vm_compute; discriminate).
  assert (classify (VString (js "12345abc")) <> KOther) as H2
    by (vm_compute; discriminate).
  split; [exact H1|]. split; [exact H2|].
  exact (proj1 (compareUIDs_by_kind (E := Samples.engine) Samples.empty_world)
           _ _ H1 H2).
Defined.

(* ===================================================================== *)
(** ** isValidWebSDKUID *)
(* ===================================================================== *)

Section IsValidWebSDKUID.

(** C2.  On an integer u, isValidWebSDKUID returns true exactly when
    1 <= u <= 2^32 - 1; it returns false on 0 and on 2^32. *)
Theorem isValidWebSDKUID_integer (w : world) :
  (forall (n : number) (u : Z),
      to_Z n = Some u ->
      exists b : bool,
        isValidWebSDKUID (VNumber n) w = (Normal b, w)
        /\ (b = true <-> 1 <= u <= 2 ^ 32 - 1))
  /\ isValidWebSDKUID (VNumber (of_Z 0)) w = (Normal false, w)
  /\ isValidWebSDKUID (VNumber (of_Z (2 ^ 32))) w = (Normal false, w).
Proof.
  split; [|split; reflexivity].
  intros n u Hn. destruct (to_Z_Some _ _ Hn) as (q & -> & Hq).
  eexists. split; [apply isValidWebSDKUID_number|].
  rewrite (in_range_integer q u Hq). apply bool_decide_eq_true.
Qed.

(** C3.  On a string s, isValidWebSDKUID returns true exactly when s has
    positive length and so has its trimmed form, that is, when s holds a
    code unit that is not white space; it returns false on "" and on
    "   ". *)
Theorem isValidWebSDKUID_text (w : world) :
  (forall s : jsstring,
      exists b : bool,
        isValidWebSDKUID (VString s) w = (Normal b, w)
        /\ (b = true <-> (0 < length s)%nat /\ (0 < length (trim s))%nat)
        /\ (b = true <-> Exists visible s))
  /\ isValidWebSDKUID (VString (js "")) w = (Normal false, w)
  /\ isValidWebSDKUID (VString (js "   ")) w = (Normal false, w).
Proof.
  split; [|split; reflexivity].
  intros s. eexists. split; [apply isValidWebSDKUID_string|].
  assert (((0 <? length s)%nat && (0 <? length (trim s))%nat = true)
          <-> (0 < length s)%nat /\ (0 < length (trim s))%nat) as Hiff.
  { rewrite andb_true_iff, !Nat.ltb_lt. reflexivity. }
  split; [exact Hiff|].
  rewrite Hiff, trim_nonempty. split; [tauto|].
  intros Hex. split; [|assumption].
  destruct s; [inversion Hex | simpl; lia].
Qed.

(** Validity of a finite number is membership in the interval, integer
    or not. *)
Lemma in_range_finite (q : Q) :
  JsNumber.ge (Finite q) (of_Z 1) && JsNumber.le (Finite q) (of_Z (2 ^ 32 - 1))
  = true
  <-> (inject_Z 1 <= q /\ q <= inject_Z (2 ^ 32 - 1))%Q.
Proof.
  unfold JsNumber.ge, JsNumber.le, of_Z, lessThan.
  rewrite andb_true_iff.
  rewrite (Qle_alt (inject_Z 1) q), (Qle_alt q (inject_Z (2 ^ 32 - 1))).
  rewrite <- (Qcompare_antisym q (inject_Z 1)).
  rewrite <- (Qcompare_antisym (inject_Z (2 ^ 32 - 1)) q).
  destruct (Qcompare q (inject_Z 1)), (Qcompare (inject_Z (2 ^ 32 - 1)) q);
    simpl; split; intros [? ?]; split; congruence.
Qed.

(** What the code does outside the two kinds.  Whatever is neither a
    number nor a string by [typeof] (boolean, object, null, undefined,
    symbol, bigint) is rejected, and so are NaN and the infinities; on a
    finite number the code compares with the two bounds and tests nothing
    else. *)
Theorem isValidWebSDKUID_rejects (w : world) :
  (forall v : value,
      (typeof v <> TNumber /\ typeof v <> TString)
      \/ v = VNumber NaN \/ v = VNumber PosInfinity
      \/ v = VNumber NegInfinity ->
      isValidWebSDKUID v w = (Normal false, w))
  /\ (forall q : Q,
        exists b : bool,
          isValidWebSDKUID (VNumber (Finite q)) w = (Normal b, w)
          /\ (b = true
              <-> (inject_Z 1 <= q /\ q <= inject_Z (2 ^ 32 - 1))%Q)).
Proof.
  split.
  - intros v [[Hn Hs] | [-> | [-> | ->]]]; try reflexivity.
    apply isValidWebSDKUID_other; assumption.
  - intros q. eexists. split; [apply isValidWebSDKUID_number|].
    apply in_range_finite.
Qed.

End IsValidWebSDKUID.

(** An instance of C2: the integer 4294967295 is valid. *)
Lemma isValidWebSDKUID_integer_witness :
  to_Z (of_Z 4294967295) = Some 4294967295
  /\ exists b : bool,
       isValidWebSDKUID (VNumber (of_Z 4294967295)) Samples.empty_world
       = (Normal b, Samples.empty_world)
       /\ (b = true <-> 1 <= 4294967295 <= 2 ^ 32 - 1).
Proof.
  split; [reflexivity|].
  exact (proj1 (isValidWebSDKUID_integer Samples.empty_world)
           (of_Z 4294967295) 4294967295 eq_refl).
Defined.

(** An instance: the object at location 1 is rejected. *)
Lemma isValidWebSDKUID_rejects_witness :
  ((typeof (VObject 1) <> TNumber /\ typeof (VObject 1) <> TString)
   \/ VObject 1 = VNumber NaN \/ VObject 1 = VNumber PosInfinity
   \/ VObject 1 = VNumber NegInfinity)
  /\ isValidWebSDKUID (VObject 1) Samples.empty_world
     = (Normal false, Samples.empty_world).
Proof.
  assert ((typeof (VObject 1) <> TNumber /\ typeof (VObject 1) <> TString)
          \/ VObject 1 = VNumber NaN \/ VObject 1 = VNumber PosInfinity
          \/ VObject 1 = VNumber NegInfinity) as Hv
    by (left; split; simpl; discriminate).
  split; [exact Hv|].
  exact (proj1 (isValidWebSDKUID_rejects Samples.empty_world) _ Hv).
Defined.

(** C6.  The code at the failing input.  The number 1.5 is neither an
    integer nor a string, so that it is to be rejected; isValidWebSDKUID
    compares it with the two bounds, never tests that it is an integer,
    and returns true. *)
Lemma isValidWebSDKUID_accepts_fraction :
  classify (VNumber (Finite (3 # 2))) = KOther
  /\ isValidWebSDKUID (VNumber (Finite (3 # 2))) Samples.empty_world
     = (Normal true, Samples.empty_world).
Proof. split; reflexivity. Qed.

(* ===================================================================== *)
(** ** isBotUser *)
(* ===================================================================== *)

Section IsBotUser.
Context {E : Engine}.

Lemma equal_DEFAULT_BOT_UID (n : number) :
  JsNumber.equal n DEFAULT_BOT_UID = true <-> to_Z n = Some 12345.
Proof.
  split.
  - destruct n as [| | |q]; simpl; try discriminate.
    intros Hq. apply Qeq_bool_iff in Hq. apply to_Z_Qeq. exact Hq.
  - intros Hn. destruct (to_Z_Some _ _ Hn) as (q & -> & Hq).
    unfold DEFAULT_BOT_UID, of_Z.
    rewrite (equal_integers q (inject_Z 12345) 12345 12345 Hq)
      by reflexivity.
    reflexivity.
Qed.

(** C4.  isBotUser returns true exactly on the integer 12345 and on the
    strings whose base-10 parse yields 12345; on a string whose parse
    fails and on a value of any other type it returns false.  And:
    isBotUser(12345) = true, isBotUser("12345") = true,
    isBotUser(12346) = false, isBotUser("abc") = false,
    isBotUser(null) = false. *)
Theorem isBotUser_spec (w : world) :
  (forall v : value,
      exists (b : bool) (w' : world),
        isBotUser v w = (Normal b, w')
        /\ (b = true
            <-> (exists n, v = VNumber n /\ to_Z n = Some 12345)
                \/ (exists s, v = VString s
                              /\ StringToMathInt s 10 = Some 12345)))
  /\ (forall s : jsstring,
        StringToMathInt s 10 = None ->
        isBotUser (VString s) w = (Normal false, w))
  /\ (forall v : value,
        typeof v <> TNumber -> typeof v <> TString ->
        eval (isBotUser v) w = Normal false)
  /\ isBotUser (VNumber (of_Z 12345)) w = (Normal true, w)
  /\ isBotUser (VString (js "12345")) w = (Normal true, w)
  /\ isBotUser (VNumber (of_Z 12346)) w = (Normal false, w)
  /\ isBotUser (VString (js "abc")) w = (Normal false, w)
  /\ eval (isBotUser VNull) w = Normal false.
Proof.
  split; [|split; [|split; [|repeat split; vm_compute; reflexivity]]].
  - intros v.
    destruct (decide (typeof v = TNumber)) as [Hn|Hn];
      [|destruct (decide (typeof v = TString)) as [Hs|Hs]].
    + destruct v as [| | |n| | | |]; try discriminate Hn.
      eexists _, _. split; [apply isBotUser_number|].
      rewrite equal_DEFAULT_BOT_UID. split.
      * intros Hz. left. exists n. split; [reflexivity | exact Hz].
      * intros [(n' & [= <-] & Hz) | (s & [=] & _)]. exact Hz.
    + destruct v as [| | | |s| | |]; try discriminate Hs.
      eexists _, _. split; [apply isBotUser_string|].
      rewrite isBotUser_string_parse, bool_decide_eq_true. split.
      * intros Hz. right. exists s. split; [reflexivity | exact Hz].
      * intros [(n & [=] & _) | (s' & [= <-] & Hz)]. exact Hz.
    + destruct (isBotUser_other v w Hn Hs) as (w' & Hrun & _).
      exists false, w'. split; [exact Hrun|]. split; [discriminate|].
      intros [(n & -> & _) | (s & -> & _)]; simpl in *; congruence.
  - intros s Hs. rewrite isBotUser_string, isBotUser_string_parse, Hs.
    reflexivity.
  - intros v Hn Hs. destruct (isBotUser_other v w Hn Hs) as (w' & Hrun & _).
    unfold eval. rewrite Hrun. reflexivity.
Qed.

(** C5.  isBotUser and compareUIDs read a string by the same parse: on
    every string s, isBotUser(s) is compareUIDs(s, getDefaultBotUID()).
    The parse is lenient: what follows the numeric prefix is ignored, so
    that "12345abc" is the bot and compares equal to 12345. *)
Theorem isBotUser_compareUIDs_consistent (w : world) :
  (forall s : jsstring,
      (d <- getDefaultBotUID ;; compareUIDs (VString s) d) w
      = isBotUser (VString s) w)
  /\ (forall (p : jsstring) (c : N) (t : jsstring) (z : Z),
        StringToMathInt p 10 = Some z ->
        is_radix_digit 10 c = false ->
        parseInt_string (p ++ c :: t) 10 = parseInt_string p 10
        /\ isBotUser (VString (p ++ c :: t)) w = isBotUser (VString p) w
        /\ compareUIDs (VString (p ++ c :: t)) (VNumber DEFAULT_BOT_UID) w
           = compareUIDs (VString p) (VNumber DEFAULT_BOT_UID) w)
  /\ isBotUser (VString (js "12345abc")) w = (Normal true, w)
  /\ compareUIDs (VString (js "12345abc")) (VNumber DEFAULT_BOT_UID) w
     = (Normal true, w).
Proof.
  split; [|split; [|split; vm_compute; reflexivity]].
  - intros s. unfold getDefaultBotUID, bind, ret.
    rewrite compareUIDs_string_number, isBotUser_string.
    destruct (parseInt_string s 10); reflexivity.
  - intros p c t z Hp Hc.
    assert (parseInt_string (p ++ c :: t) 10 = parseInt_string p 10) as Hparse.
    { unfold parseInt_string.
      rewrite (StringToMathInt_lenient p c t z Hp Hc), Hp. reflexivity. }
    split; [exact Hparse|].
    rewrite !isBotUser_string, !compareUIDs_string_number, Hparse.
    split; reflexivity.
Qed.

End IsBotUser.

(** An instance of C5: "12345" followed by "abc". *)
Lemma isBotUser_compareUIDs_consistent_witness :
  StringToMathInt (js "12345") 10 = Some 12345
  /\ is_radix_digit 10 97%N = false
  /\ parseInt_string (js "12345" ++ 97%N :: js "bc") 10
     = parseInt_string (js "12345") 10.
Proof.
  split; [reflexivity|]. split; [reflexivity|].
  exact (proj1 (proj1 (proj2 (isBotUser_compareUIDs_consistent
                                (E := Samples.engine) Samples.empty_world))
                  (js "12345") 97%N (js "bc") 12345 eq_refl eq_refl)).
Defined.

(** An instance of C4: a string whose parse fails. *)
Lemma isBotUser_spec_witness :
  StringToMathInt (js "abc") 10 = None
  /\ isBotUser (E := Samples.engine) (VString (js "abc")) Samples.empty_world
     = (Normal false, Samples.empty_world).
Proof.
  split; [reflexivity|].
  exact (proj1 (proj2 (isBotUser_spec (E := Samples.engine) Samples.empty_world))
           (js "abc") eq_refl).
Defined.

(* ===================================================================== *)
(** ** validateConfiguration *)
(* ===================================================================== *)

Section Monad.
Context {S A : Type}.

Lemma bind_normal {B} (m : M S A) (k : A -> M S B) (s s' : S) (a : A) :
  m s = (Normal a, s') -> bind m k s = k a s'.
Proof. unfold bind. intros ->. reflexivity. Qed.

Lemma bind_throw {B} (m : M S A) (k : A -> M S B) (s s' : S) (e : error) :
  m s = (Throw e, s') -> bind m k s = (Throw e, s').
Proof. unfold bind. intros ->. reflexivity. Qed.

(** A [try] whose handler completes normally completes normally. *)
Lemma try_catch_total (m : M S A) (handler : error -> M S A) :
  (forall e s, exists a s', handler e s = (Normal a, s')) ->
  forall s, exists a s', try_catch m handler s = (Normal a, s').
Proof.
  intros Hh s. unfold try_catch.
  destruct (m s) as [[a|e] s']; [eauto | apply Hh].
Qed.

(** The two ways a [try] goes. *)
Lemma try_catch_cases (m : M S A) (handler : error -> M S A) (s : S) :
  (exists a s', m s = (Normal a, s')
                /\ try_catch m handler s = (Normal a, s'))
  \/ (exists e s', m s = (Throw e, s')
                   /\ try_catch m handler s = handler e s').
Proof.
  unfold try_catch. destruct (m s) as [[a|e] s']; [left | right]; eauto.
Qed.

Lemma preserves_ret {X} (f : S -> X) (a : A) : preserves f (ret a).
Proof. intros s. reflexivity. Qed.

Lemma preserves_throw {X} (f : S -> X) (e : error) :
  preserves f (throw (A := A) e).
Proof. intros s. reflexivity. Qed.

Lemma preserves_bind {X B} (f : S -> X) (m : M S A) (k : A -> M S B) :
  preserves f m -> (forall a, preserves f (k a)) -> preserves f (bind m k).
Proof.
  intros Hm Hk s. unfold bind. specialize (Hm s).
  destruct (m s) as [[a|e] s']; simpl in *; [|exact Hm].
  rewrite <- Hm. apply Hk.
Qed.

Lemma preserves_try_catch {X} (f : S -> X) (m : M S A)
      (handler : error -> M S A) :
  preserves f m -> (forall e, preserves f (handler e)) ->
  preserves f (try_catch m handler).
Proof.
  intros Hm Hh s. unfold try_catch. specialize (Hm s).
  destruct (m s) as [[a|e] s']; simpl in *; [exact Hm|].
  rewrite <- Hm. apply Hh.
Qed.

End Monad.

Create HintDb frame.

Section Frame.
Context {E : Engine}.

Lemma preserves_lift {A} (m : JS A) :
  preserves heap m -> preserves frame (lift m).
Proof.
  intros Hm [r w]. unfold lift, frame. simpl. specialize (Hm w).
  destruct (m w) as [c w']. simpl in *. rewrite Hm. reflexivity.
Qed.

Lemma preserves_ToString (v : value) : preserves heap (ToString v).
Proof.
  intros w. destruct v; try reflexivity. simpl.
  unfold bind, get. destruct (_ !! _); reflexivity.
Qed.

Lemma preserves_Get (v : value) (key : jsstring) : preserves heap (Get v key).
Proof. intros w. destruct v; reflexivity. Qed.

Lemma preserves_HasProperty (key : jsstring) (v : value) :
  preserves heap (HasProperty key v).
Proof. intros w. destruct v; reflexivity. Qed.

Lemma preserves_isValidWebSDKUID (v : value) :
  preserves heap (isValidWebSDKUID v).
Proof. intros w. destruct v; reflexivity. Qed.

Lemma preserves_isBotUser (v : value) : preserves heap (isBotUser v).
Proof. intros w. destruct v; reflexivity. Qed.

Lemma preserves_errors_push (msg : jsstring) :
  preserves frame (errors_push msg).
Proof. intros [r w]. reflexivity. Qed.

Lemma preserves_warnings_push (msg : jsstring) :
  preserves frame (warnings_push msg).
Proof. intros [r w]. reflexivity. Qed.

Lemma preserves_set_isValid (b : bool) : preserves frame (set_isValid b).
Proof. intros [r w]. reflexivity. Qed.

#[local] Hint Resolve preserves_ToString preserves_Get preserves_HasProperty
  preserves_isValidWebSDKUID preserves_isBotUser preserves_errors_push
  preserves_warnings_push preserves_set_isValid : frame.

Ltac frame_step :=
  match goal with
  | |- preserves _ (bind _ _) => apply preserves_bind; [|intros ?]
  | |- preserves _ (try_catch _ _) => apply preserves_try_catch; [|intros ?]
  | |- preserves _ (lift _) => apply preserves_lift
  | |- preserves _ (ret _) => apply preserves_ret
  | |- preserves _ (if ?b then _ else _) => destruct b
  | |- _ => solve [auto with frame]
  end.

(** The [try] block touches neither the heap nor the [config] field of
    the result. *)
Lemma preserves_validateConfiguration_try (config0 : value) :
  preserves frame (validateConfiguration_try config0).
Proof.
  unfold validateConfiguration_try, validateConfiguration_botUid,
    validateConfiguration_uid.
  repeat frame_step.
Qed.

Lemma preserves_validateConfiguration_catch (e : error) :
  preserves frame (validateConfiguration_catch e).
Proof. unfold validateConfiguration_catch. repeat frame_step. Qed.

End Frame.

Section ValidateConfiguration.
Context {E : Engine}.

(** validateConfiguration, by the way its [try] block completes. *)
Lemma validateConfiguration_run (c : value) (w : world) :
  forall (copy : value) (w0 : world),
    object_spread c w = (Normal copy, w0) ->
    (exists r w',
        validateConfiguration_try c (initial_result copy, w0)
        = (Normal tt, (r, w'))
        /\ validateConfiguration c w = (Normal r, w'))
    \/ (exists e r w',
           validateConfiguration_try c (initial_result copy, w0)
           = (Throw e, (r, w'))
           /\ validateConfiguration c w = (Normal (caught r e), w')).
Proof.
  intros copy w0 Hspread.
  unfold validateConfiguration.
  rewrite (bind_normal _ _ _ _ _ Hspread).
  unfold with_local, try_catch.
  destruct (validateConfiguration_try c (initial_result copy, w0))
    as [[[]|e] [r w']].
  - left. eauto.
  - right. exists e, r, w'. split; reflexivity.
Qed.

Lemma object_spread_run (c : value) (w : world) :
  object_spread c w
  = (Normal (VObject (fresh (dom (heap w)))),
     World (<[fresh (dom (heap w)) := enumerable_own_properties w c]> (heap w))
           (console w)).
Proof. reflexivity. Qed.

Lemma fresh_location (w : world) : heap w !! fresh (dom (heap w)) = None.
Proof. apply not_elem_of_dom, is_fresh. Qed.

(** C9.  Whatever the outcome, the [config] field of the result refers
    to a new object that holds the own enumerable properties of the
    input, each with the value it has in the input (a shallow copy);
    every object of the heap, the input among them, is as it was. *)
Theorem validateConfiguration_copies (w : world) (c : value) :
  exists (r : ValidationResult) (w' : world) (l : loc),
    validateConfiguration c w = (Normal r, w')
    /\ config r = VObject l
    /\ heap w !! l = None
    /\ heap w' = <[l := enumerable_own_properties w c]> (heap w)
    /\ (forall l0 o, heap w !! l0 = Some o -> heap w' !! l0 = Some o)
    /\ (forall l0 o,
          c = VObject l0 -> heap w !! l0 = Some o ->
          l <> l0 /\ heap w' !! l = Some o).
Proof.
  pose proof (object_spread_run c w) as Hspread.
  pose proof (fresh_location w) as Hfresh.
  set (l := fresh (dom (heap w))) in *.
  set (w0 := World _ _) in Hspread.
  assert (exists r w',
             validateConfiguration c w = (Normal r, w')
             /\ frame (r, w') = frame (initial_result (VObject l), w0))
    as (r & w' & Hrun & Hframe).
  { destruct (validateConfiguration_run c w _ _ Hspread)
      as [(r & w' & Htry & Hrun) | (e & r & w' & Htry & Hrun)].
    - exists r, w'. split; [exact Hrun|].
      rewrite <- (preserves_validateConfiguration_try c
                    (initial_result (VObject l), w0)).
      rewrite Htry. reflexivity.
    - exists (caught r e), w'. split; [exact Hrun|].
      rewrite <- (preserves_validateConfiguration_try c
                    (initial_result (VObject l), w0)).
      rewrite Htry. reflexivity. }
  unfold frame in Hframe. simpl in Hframe.
  injection Hframe as Hconfig Hheap.
  exists r, w', l.
  split; [exact Hrun|]. split; [exact Hconfig|]. split; [exact Hfresh|].
  split; [exact Hheap|]. split.
  - intros l0 o Hl0. rewrite Hheap.
    rewrite lookup_insert_ne by congruence. exact Hl0.
  - intros l0 o -> Hl0. split; [congruence|].
    rewrite Hheap, lookup_insert_eq. simpl.
    unfold own_properties. rewrite Hl0. reflexivity.
Qed.

Lemma handler_false (w : world) (args : list logged) :
  (console_error args ;;; ret false) w
  = (Normal false, World (heap w) (console w ++ [(LevelError, args)])).
Proof. reflexivity. Qed.

(** What the [try] blocks do contain, on data values.  When the [try]
    block of a predicate throws, the predicate returns false; when the
    [try] block of validateConfiguration throws, the result is the one
    reached so far with one more error message and [isValid] false.  Such
    failures exist: [compareUIDs(Symbol(), 1)] converts a symbol to a
    string, [validateConfiguration(null)] applies [in] to null.  What is
    evaluated outside a [try] is not covered: see
    [failures_not_all_contained]. *)
Theorem failures_contained (w : world) :
  (forall uid : value,
      (exists b w', isBotUser_try uid w = (Normal b, w')
                    /\ isBotUser uid w = (Normal b, w'))
      \/ (exists e w1 w', isBotUser_try uid w = (Throw e, w1)
                          /\ isBotUser uid w = (Normal false, w')))
  /\ (forall uid : value,
        (exists b w', isValidWebSDKUID_try uid w = (Normal b, w')
                      /\ isValidWebSDKUID uid w = (Normal b, w'))
        \/ (exists e w1 w', isValidWebSDKUID_try uid w = (Throw e, w1)
                            /\ isValidWebSDKUID uid w = (Normal false, w')))
  /\ (forall uid1 uid2 : value,
        (exists b w', compareUIDs_try uid1 uid2 w = (Normal b, w')
                      /\ compareUIDs uid1 uid2 w = (Normal b, w'))
        \/ (exists e w1 w', compareUIDs_try uid1 uid2 w = (Throw e, w1)
                            /\ compareUIDs uid1 uid2 w = (Normal false, w')))
  /\ (forall c : value,
        exists (copy : value) (w0 : world),
          object_spread c w = (Normal copy, w0)
          /\ ((exists r w',
                  validateConfiguration_try c (initial_result copy, w0)
                  = (Normal tt, (r, w'))
                  /\ validateConfiguration c w = (Normal r, w'))
              \/ (exists e r w',
                     validateConfiguration_try c (initial_result copy, w0)
                     = (Throw e, (r, w'))
                     /\ validateConfiguration c w
                        = (Normal (caught r e), w')
                     /\ isValid (caught r e) = false
                     /\ errors (caught r e)
                        = errors r
                          ++ [js "配置验证异常: " ++ error_message e])))
  /\ (forall c : value,
        exists r w', validateConfiguration c w = (Normal r, w'))
  /\ (compareUIDs_try (VSymbol 1) (VNumber (of_Z 1)) w
      = (Throw (TypeError SymbolToString), w)
      /\ eval (compareUIDs (VSymbol 1) (VNumber (of_Z 1))) w = Normal false)
  /\ (exists copy w0,
        object_spread VNull w = (Normal copy, w0)
        /\ validateConfiguration_try VNull (initial_result copy, w0)
           = (Throw (TypeError (InOperandNotObject (js "botUid") VNull)),
              (initial_result copy, w0))
        /\ validateConfiguration VNull w
           = (Normal (caught (initial_result copy)
                        (TypeError (InOperandNotObject (js "botUid") VNull))),
              w0)).
Proof.
  assert (forall (body : JS bool) (args : error -> list logged),
             (exists b w', body w = (Normal b, w')
                /\ try_catch body
                     (fun e => console_error (args e) ;;; ret false) w
                   = (Normal b, w'))
             \/ (exists e w1 w', body w = (Throw e, w1)
                   /\ try_catch body
                        (fun e => console_error (args e) ;;; ret false) w
                      = (Normal false, w'))) as Hpredicate.
  { intros body args.
    destruct (try_catch_cases body
                (fun e => console_error (args e) ;;; ret false) w)
      as [(b & w' & Hbody & Hrun) | (e & w1 & Hbody & Hrun)].
    - left. eauto.
    - right. rewrite handler_false in Hrun. eauto 6. }
  assert (forall c : value,
             exists (copy : value) (w0 : world),
               object_spread c w = (Normal copy, w0)
               /\ ((exists r w',
                       validateConfiguration_try c (initial_result copy, w0)
                       = (Normal tt, (r, w'))
                       /\ validateConfiguration c w = (Normal r, w'))
                   \/ (exists e r w',
                          validateConfiguration_try c
                            (initial_result copy, w0)
                          = (Throw e, (r, w'))
                          /\ validateConfiguration c w
                             = (Normal (caught r e), w')
                          /\ isValid (caught r e) = false
                          /\ errors (caught r e)
                             = errors r
                               ++ [js "配置验证异常: " ++ error_message e])))
    as Hvalidate.
  { intros c. eexists _, _. split; [apply object_spread_run|].
    destruct (validateConfiguration_run c w _ _ (object_spread_run c w))
      as [Hnormal | (e & r & w' & Htry & Hrun)]; [left; exact Hnormal|].
    right. exists e, r, w'. repeat split; assumption. }
  split; [intros uid; exact (Hpredicate (isBotUser_try uid) _)|].
  split; [intros uid; exact (Hpredicate (isValidWebSDKUID_try uid) _)|].
  split; [intros uid1 uid2; exact (Hpredicate (compareUIDs_try uid1 uid2) _)|].
  split; [exact Hvalidate|].
  split.
  { intros c. destruct (Hvalidate c) as (copy & w0 & _ & [H1 | H2]).
    - destruct H1 as (r & w' & _ & Hrun). eauto.
    - destruct H2 as (e & r & w' & _ & Hrun & _). eauto. }
  split; [split; reflexivity|].
  eexists _, _. split; [apply object_spread_run|]. split; reflexivity.
Qed.

End ValidateConfiguration.

Section BotUidMismatch.
Context {E : Engine}.

Lemma HasProperty_object (key : jsstring) (l0 : loc) (w : world) :
  HasProperty key (VObject l0) w
  = (Normal (bool_decide (is_Some (own_properties w l0 !! key))), w).
Proof. reflexivity. Qed.

Lemma Get_object (key : jsstring) (l0 : loc) (w : world) :
  Get (VObject l0) key w
  = (Normal (default VUndefined (own_properties w l0 !! key)), w).
Proof. reflexivity. Qed.

Lemma lift_run {L A} (m : JS A) (r : L) (w w' : world) (c : completion A) :
  m w = (c, w') -> lift m (r, w) = (c, (r, w')).
Proof. unfold lift. simpl. intros ->. reflexivity. Qed.

(** isValidWebSDKUID reads nothing of the world and leaves it alone. *)
Lemma isValidWebSDKUID_run (v : value) (w w' : world) :
  isValidWebSDKUID v w' = (eval (isValidWebSDKUID v) w, w').
Proof. destruct v; reflexivity. Qed.

Lemma isValidWebSDKUID_total (v : value) (w : world) :
  exists b : bool, eval (isValidWebSDKUID v) w = Normal b.
Proof. destruct v; eexists; reflexivity. Qed.

(** A valid UID is a number or a string; on these isBotUser and ToString
    read nothing of the world and leave it alone. *)
Lemma valid_number_or_string (v : value) (w : world) :
  eval (isValidWebSDKUID v) w = Normal true ->
  typeof v = TNumber \/ typeof v = TString.
Proof. destruct v; simpl; auto; discriminate. Qed.

Lemma isBotUser_run (v : value) (w w' : world) :
  typeof v = TNumber \/ typeof v = TString ->
  isBotUser v w' = (eval (isBotUser v) w, w').
Proof.
  destruct v; simpl; intros [?|?]; try discriminate; reflexivity.
Qed.

Lemma ToString_run (v : value) (w w' : world) :
  typeof v = TNumber \/ typeof v = TString ->
  exists shown : jsstring,
    eval (ToString v) w = Normal shown
    /\ ToString v w' = (Normal shown, w').
Proof.
  destruct v; simpl; intros [?|?]; try discriminate;
    eexists; split; reflexivity.
Qed.

Lemma ToString_DEFAULT_BOT_UID (w : world) :
  ToString (VNumber DEFAULT_BOT_UID) w = (Normal (js "12345"), w).
Proof. vm_compute. reflexivity. Qed.

(** The check of a [botUid] that is valid and is not the bot: one
    warning, nothing else. *)
Lemma validateConfiguration_botUid_warns
      (l0 : loc) (v : value) (shown : jsstring)
      (r : ValidationResult) (w : world) :
  own_properties w l0 !! js "botUid" = Some v ->
  isValidWebSDKUID v w = (Normal true, w) ->
  isBotUser v w = (Normal false, w) ->
  ToString v w = (Normal shown, w) ->
  validateConfiguration_botUid (VObject l0) (r, w)
  = (Normal tt, (add_warning (mismatch_warning shown) r, w)).
Proof.
  intros Hv Hvalid Hbot Hshown.
  assert (Get (VObject l0) (js "botUid") w = (Normal v, w)) as Hget
    by (rewrite Get_object, Hv; reflexivity).
  unfold validateConfiguration_botUid.
  rewrite (bind_normal _ _ _ _ _
             (lift_run _ _ _ _ _ (HasProperty_object _ _ _))).
  rewrite Hv. cbn [bool_decide decide_rel].
  rewrite bool_decide_eq_true_2 by (eexists; reflexivity).
  rewrite (bind_normal _ _ _ _ _ (lift_run _ _ _ _ _ Hget)).
  rewrite (bind_normal _ _ _ _ _ (lift_run _ _ _ _ _ Hvalid)).
  cbn [negb].
  rewrite (bind_normal _ _ _ _ _ (lift_run _ _ _ _ _ Hget)).
  rewrite (bind_normal _ _ _ _ _ (lift_run _ _ _ _ _ Hbot)).
  cbn [negb].
  assert ((x <- Get (VObject l0) (js "botUid") ;; ToString x) w
          = (Normal shown, w)) as Hshow
    by (rewrite (bind_normal _ _ _ _ _ Hget); exact Hshown).
  rewrite (bind_normal _ _ _ _ _ (lift_run _ _ _ _ _ Hshow)).
  rewrite (bind_normal _ _ _ _ _
             (lift_run _ _ _ _ _ (ToString_DEFAULT_BOT_UID w))).
  unfold warnings_push, modify, mismatch_warning. cbn [fst snd].
  reflexivity.
Qed.

(** The check of [uid], by cases. *)
Lemma validateConfiguration_uid_absent
      (l0 : loc) (r : ValidationResult) (w : world) :
  own_properties w l0 !! js "uid" = None ->
  validateConfiguration_uid (VObject l0) (r, w) = (Normal tt, (r, w)).
Proof.
  intros Hu. unfold validateConfiguration_uid.
  rewrite (bind_normal _ _ _ _ _
             (lift_run _ _ _ _ _ (HasProperty_object _ _ _))).
  rewrite Hu.
  rewrite bool_decide_eq_false_2 by (intros [? ?]; discriminate).
  reflexivity.
Qed.

Lemma validateConfiguration_uid_present
      (l0 : loc) (u : value) (b : bool) (r : ValidationResult) (w : world) :
  own_properties w l0 !! js "uid" = Some u ->
  isValidWebSDKUID u w = (Normal b, w) ->
  validateConfiguration_uid (VObject l0) (r, w)
  = if b then (Normal tt, (r, w))
    else match ToString u w with
         | (Normal shown, w') =>
             (Normal tt,
              (assign_isValid false
                 (add_error (js "无效的uid: " ++ shown) r), w'))
         | (Throw e, w') => (Throw e, (r, w'))
         end.
Proof.
  intros Hu Hvalid.
  assert (Get (VObject l0) (js "uid") w = (Normal u, w)) as Hget
    by (rewrite Get_object, Hu; reflexivity).
  unfold validateConfiguration_uid.
  rewrite (bind_normal _ _ _ _ _
             (lift_run _ _ _ _ _ (HasProperty_object _ _ _))).
  rewrite Hu.
  rewrite bool_decide_eq_true_2 by (eexists; reflexivity).
  rewrite (bind_normal _ _ _ _ _ (lift_run _ _ _ _ _ Hget)).
  rewrite (bind_normal _ _ _ _ _ (lift_run _ _ _ _ _ Hvalid)).
  destruct b; cbn [negb]; [reflexivity|].
  assert ((x <- Get (VObject l0) (js "uid") ;; ToString x) w
          = ToString u w) as Hshow
    by (rewrite (bind_normal _ _ _ _ _ Hget); reflexivity).
  destruct (ToString u w) as [[shown|e] w'] eqn:Hto.
  - rewrite (bind_normal _ _ _ _ _ (lift_run _ _ _ _ _ Hshow)).
    reflexivity.
  - rewrite (bind_throw _ _ _ _ _ (lift_run _ _ _ _ _ Hshow)).
    reflexivity.
Qed.

End BotUidMismatch.

Section BotUidMismatchTheorem.
Context {E : Engine}.

(** validateConfiguration from the completion of its [try] block. *)
Lemma validateConfiguration_of_try (c : value) (w : world) :
  validateConfiguration c w
  = match validateConfiguration_try c
            (initial_result (VObject (fresh (dom (heap w)))),
             World (<[fresh (dom (heap w)) := enumerable_own_properties w c]>
                      (heap w)) (console w)) with
    | (Normal _, (r, w')) => (Normal r, w')
    | (Throw e, (r, w')) => (Normal (caught r e), w')
    end.
Proof.
  unfold validateConfiguration.
  rewrite (bind_normal _ _ _ _ _ (object_spread_run c w)).
  unfold with_local, try_catch.
  destruct (validateConfiguration_try _ _) as [[[]|e] [r w']]; reflexivity.
Qed.

(** C7, as the code has it.  When [botUid] holds a value that is valid
    and is not the bot, the result carries exactly one warning, the one
    about the mismatch, and no error about [botUid]: the warning leaves
    [isValid] alone, which is decided by the [uid] field as usual: true
    with no error when [uid] is absent or valid, false with one error
    when [uid] is present and invalid. *)
Theorem validateConfiguration_botUid_mismatch
        (w : world) (l0 : loc) (o : gmap jsstring value) (v : value) :
  heap w !! l0 = Some o ->
  o !! js "botUid" = Some v ->
  eval (isValidWebSDKUID v) w = Normal true ->
  eval (isBotUser v) w = Normal false ->
  exists (r : ValidationResult) (w' : world) (shown : jsstring),
    validateConfiguration (VObject l0) w = (Normal r, w')
    /\ eval (ToString v) w = Normal shown
    /\ warnings r = [mismatch_warning shown]
    /\ match o !! js "uid" with
       | None => isValid r = true /\ errors r = []
       | Some u =>
           exists b : bool,
             eval (isValidWebSDKUID u) w = Normal b
             /\ isValid r = b
             /\ if b then errors r = []
                else exists msg : jsstring,
                    errors r = [msg]
                    /\ ((exists shown_u, msg = js "无效的uid: " ++ shown_u)
                        \/ (exists e,
                              msg = js "配置验证异常: " ++ error_message e))
       end.
Proof.
  intros Hl0 Hv Hvalid Hbot.
  pose proof (valid_number_or_string v w Hvalid) as Hty.
  rewrite validateConfiguration_of_try.
  pose proof (fresh_location w) as Hfresh.
  set (l := fresh (dom (heap w))) in *.
  set (w0 := World _ _).
  assert (own_properties w0 l0 = o) as Hown.
  { unfold own_properties, w0. cbn [heap].
    rewrite lookup_insert_ne by congruence. rewrite Hl0. reflexivity. }
  destruct (ToString_run v w w0 Hty) as (shown & Hshown & Hshown0).
  assert (validateConfiguration_botUid (VObject l0)
            (initial_result (VObject l), w0)
          = (Normal tt,
             (add_warning (mismatch_warning shown)
                (initial_result (VObject l)), w0))) as HbotUid.
  { apply validateConfiguration_botUid_warns with (v := v).
    - rewrite Hown. exact Hv.
    - rewrite (isValidWebSDKUID_run v w w0), Hvalid. reflexivity.
    - rewrite (isBotUser_run v w w0 Hty), Hbot. reflexivity.
    - exact Hshown0. }
  unfold validateConfiguration_try.
  rewrite (bind_normal _ _ _ _ _ HbotUid).
  destruct (o !! js "uid") as [u|] eqn:Hu.
  - destruct (isValidWebSDKUID_total u w) as [b Hb].
    rewrite (validateConfiguration_uid_present l0 u b)
      by (first [rewrite Hown; exact Hu
                | rewrite (isValidWebSDKUID_run u w w0), Hb; reflexivity]).
    destruct b.
    + eexists _, _, shown. split; [reflexivity|].
      split; [exact Hshown|]. split; [reflexivity|].
      exists true. repeat split; assumption.
    + destruct (ToString u w0) as [[shown_u|e] w'].
      * eexists _, _, shown. split; [reflexivity|].
        split; [exact Hshown|]. split; [reflexivity|].
        exists false. split; [exact Hb|]. split; [reflexivity|].
        eexists. split; [reflexivity|]. left. eexists. reflexivity.
      * eexists _, _, shown. split; [reflexivity|].
        split; [exact Hshown|]. split; [reflexivity|].
        exists false. split; [exact Hb|]. split; [reflexivity|].
        eexists. split; [reflexivity|]. right. eexists. reflexivity.
  - rewrite validateConfiguration_uid_absent by (rewrite Hown; exact Hu).
    eexists _, _, shown. split; [reflexivity|].
    split; [exact Hshown|]. repeat split; reflexivity.
Qed.

End BotUidMismatchTheorem.

(** An instance of C7 as the code has it: [{ botUid: 999 }]. *)
Lemma validateConfiguration_botUid_mismatch_witness :
  exists (r : ValidationResult) (w' : world),
    validateConfiguration (E := Samples.engine) (VObject 1) Samples.world_bot999
    = (Normal r, w')
    /\ warnings r = [mismatch_warning (js "999")]
    /\ isValid r = true /\ errors r = [].
Proof.
  destruct (validateConfiguration_botUid_mismatch (E := Samples.engine)
              Samples.world_bot999 1
              {[ js "botUid" := VNumber (of_Z 999) ]} (VNumber (of_Z 999)))
    as (r & w' & shown & Hrun & Hshown & Hwarn & Huid);
    try (vm_compute; reflexivity).
  exists r, w'. split; [exact Hrun|].
  split.
  - rewrite Hwarn. vm_compute in Hshown. injection Hshown as <-.
    reflexivity.
  - exact Huid.
Defined.

(** C7 as stated fails: in [{ botUid: 999, uid: -1 }] the value of [botUid]
    is valid and is not the bot, and the result has [isValid] false. *)
Lemma validateConfiguration_mismatch_not_always_valid :
  heap Samples.world_bot999_uidm1 !! 1%positive
  = Some {[ js "botUid" := VNumber (of_Z 999);
            js "uid" := VNumber (of_Z (-1)) ]}
  /\ eval (isValidWebSDKUID (VNumber (of_Z 999))) Samples.world_bot999_uidm1
     = Normal true
  /\ eval (isBotUser (E := Samples.engine) (VNumber (of_Z 999)))
       Samples.world_bot999_uidm1
     = Normal false
  /\ exists (r : ValidationResult) (w' : world),
       validateConfiguration (E := Samples.engine) (VObject 1)
         Samples.world_bot999_uidm1
       = (Normal r, w')
       /\ isValid r = false
       /\ errors r = [js "无效的uid: -1"]
       /\ warnings r = [mismatch_warning (js "999")].
Proof.
  split; [reflexivity|]. split; [reflexivity|]. split; [reflexivity|].
  eexists _, _. split; [vm_compute; reflexivity|].
  repeat split; vm_compute; reflexivity.
Qed.

(** An instance of C9: [{ botUid: 999, uid: -1 }], an invalid
    configuration; the copy is a new object with the same two fields. *)
Lemma validateConfiguration_copies_witness :
  heap Samples.world_bot999_uidm1 !! 1%positive
  = Some {[ js "botUid" := VNumber (of_Z 999);
            js "uid" := VNumber (of_Z (-1)) ]}
  /\ exists (r : ValidationResult) (w' : world) (l : loc),
       validateConfiguration (E := Samples.engine) (VObject 1)
         Samples.world_bot999_uidm1
       = (Normal r, w')
       /\ config r = VObject l
       /\ l <> 1%positive
       /\ heap w' !! l
          = Some {[ js "botUid" := VNumber (of_Z 999);
                    js "uid" := VNumber (of_Z (-1)) ]}
       /\ heap w' !! 1%positive
          = Some {[ js "botUid" := VNumber (of_Z 999);
                    js "uid" := VNumber (of_Z (-1)) ]}.
Proof.
  assert (heap Samples.world_bot999_uidm1 !! 1%positive
          = Some {[ js "botUid" := VNumber (of_Z 999);
                    js "uid" := VNumber (of_Z (-1)) ]}) as Hl0
    by reflexivity.
  split; [exact Hl0|].
  destruct (validateConfiguration_copies (E := Samples.engine)
              Samples.world_bot999_uidm1 (VObject 1))
    as (r & w' & l & Hrun & Hconfig & _ & _ & Hkept & Hcopy).
  destruct (Hcopy 1%positive _ eq_refl Hl0) as [Hne Hl].
  exists r, w', l. repeat split; try assumption.
  apply Hkept. exact Hl0.
Defined.

(* ===================================================================== *)
(** ** Further properties of the predicates *)
(* ===================================================================== *)

Section PredicateProperties.
Context {E : Engine}.

(** ToString writes nothing and allocates nothing. *)
Lemma ToString_world (v : value) (w : world) : snd (ToString v w) = w.
Proof.
  destruct v; try reflexivity. simpl. unfold bind, get.
  destruct (_ !! _); reflexivity.
Qed.

Lemma parseInt_run (v : value) (w : world) :
  parseInt v 10 w
  = (match eval (ToString v) w with
     | Normal s => Normal (parseInt_string s 10)
     | Throw e => Throw e
     end, w).
Proof.
  unfold parseInt, bind, ret, eval.
  pose proof (ToString_world v w) as Hw.
  destruct (ToString v w) as [[s|e] w']; simpl in *; subst; reflexivity.
Qed.

Lemma compareUIDs_operand_world (v : value) (w : world) :
  snd (compareUIDs_operand v w) = w.
Proof.
  destruct v; try reflexivity; unfold compareUIDs_operand;
    rewrite parseInt_run; reflexivity.
Qed.

(** compareUIDs on operands of different types, from the numbers that the
    two operands become. *)
Lemma compareUIDs_mixed (a b : value) (w : world) :
  typeof a <> typeof b ->
  eval (compareUIDs a b) w
  = Normal (match eval (compareUIDs_operand a) w,
                  eval (compareUIDs_operand b) w with
            | Normal m, Normal n =>
                negb (isNaN m || isNaN n) && JsNumber.equal m n
            | _, _ => false
            end).
Proof.
  intros Hty. unfold compareUIDs.
  assert (compareUIDs_try a b
          = (num1 <- compareUIDs_operand a ;;
             num2 <- compareUIDs_operand b ;;
             if isNaN num1 || isNaN num2 then ret false
             else ret (strict_equals (VNumber num1) (VNumber num2)))) as ->.
  { unfold compareUIDs_try. rewrite bool_decide_eq_false_2 by assumption.
    destruct a, b; reflexivity. }
  unfold try_catch, bind, eval.
  pose proof (compareUIDs_operand_world a w) as Ha.
  destruct (compareUIDs_operand a w) as [[m|e] w1]; simpl in Ha; subst w1;
    [|reflexivity].
  pose proof (compareUIDs_operand_world b w) as Hb.
  destruct (compareUIDs_operand b w) as [[n|e] w1]; simpl in Hb; subst w1;
    [|reflexivity].
  cbn [fst]. destruct (isNaN m || isNaN n); reflexivity.
Qed.

Lemma compareUIDs_same_type (a b : value) (w : world) :
  typeof a = typeof b ->
  compareUIDs a b w = (Normal (strict_equals a b), w).
Proof.
  intros Hty. unfold compareUIDs, compareUIDs_try, try_catch.
  rewrite bool_decide_eq_true_2 by assumption. reflexivity.
Qed.

Lemma strict_equals_sym (a b : value) : strict_equals a b = strict_equals b a.
Proof.
  destruct a, b; simpl; try reflexivity.
  - destruct b, b0; reflexivity.
  - apply equal_sym.
  - rewrite !eqb_bool_decide. apply bool_decide_ext. split; congruence.
  - apply Pos.eqb_sym.
  - apply Z.eqb_sym.
  - apply Pos.eqb_sym.
Qed.

(** X1.  The result of compareUIDs does not depend on the order of its
    two arguments, whatever they are; only the console can tell, when a
    conversion fails. *)
Theorem compareUIDs_symmetric (w : world) (a b : value) :
  eval (compareUIDs a b) w = eval (compareUIDs b a) w.
Proof.
  destruct (decide (typeof a = typeof b)) as [Hty|Hty].
  - unfold eval.
    rewrite (compareUIDs_same_type a b w Hty).
    rewrite (compareUIDs_same_type b a w (eq_sym Hty)).
    cbn [fst]. rewrite strict_equals_sym. reflexivity.
  - rewrite (compareUIDs_mixed a b w Hty).
    rewrite (compareUIDs_mixed b a w) by congruence.
    destruct (eval (compareUIDs_operand a) w) as [m|],
             (eval (compareUIDs_operand b) w) as [n|]; try reflexivity.
    rewrite (orb_comm (isNaN m)), (equal_sym m n). reflexivity.
Qed.

Lemma strict_equals_refl (v : value) :
  v <> VNumber NaN -> strict_equals v v = true.
Proof.
  intros Hv. destruct v as [| |b|n|s|i|z|l]; simpl; try reflexivity.
  - destruct b; reflexivity.
  - destruct n as [| | |q]; try reflexivity; [congruence|].
    simpl. apply Qeq_bool_iff. reflexivity.
  - rewrite eqb_bool_decide. apply bool_decide_eq_true. reflexivity.
  - apply Pos.eqb_refl.
  - apply Z.eqb_refl.
  - apply Pos.eqb_refl.
Qed.

(** X2.  Every value compares equal to itself, NaN excepted: compareUIDs
    of NaN with NaN is false. *)
Theorem compareUIDs_reflexive_but_NaN (w : world) :
  (forall v : value,
      v <> VNumber NaN -> compareUIDs v v w = (Normal true, w))
  /\ compareUIDs (VNumber NaN) (VNumber NaN) w = (Normal false, w).
Proof.
  split; [|reflexivity].
  intros v Hv. rewrite (compareUIDs_same_type v v w eq_refl).
  rewrite strict_equals_refl by assumption. reflexivity.
Qed.

(** A string from which an integer is read holds a character that is not
    white space. *)
Lemma StringToMathInt_visible (s : jsstring) (z : Z) :
  StringToMathInt s 10 = Some z -> Exists visible s.
Proof.
  rewrite StringToMathInt_10. intros Hs.
  apply trim_start_nonempty. intros Hnil. rewrite Hnil in Hs.
  discriminate Hs.
Qed.

Lemma visible_valid (s : jsstring) (w : world) :
  Exists visible s -> isValidWebSDKUID (VString s) w = (Normal true, w).
Proof.
  intros Hs. rewrite isValidWebSDKUID_string.
  assert ((0 < length (trim s))%nat) as Htrim by (apply trim_nonempty, Hs).
  assert ((0 < length s)%nat) as Hlen
    by (destruct s; [inversion Hs | simpl; lia]).
  apply Nat.ltb_lt in Htrim, Hlen. rewrite Htrim, Hlen. reflexivity.
Qed.

Lemma bot_number_valid (n : number) :
  JsNumber.equal n DEFAULT_BOT_UID = true ->
  JsNumber.ge n (of_Z 1) && JsNumber.le n (of_Z (2 ^ 32 - 1)) = true.
Proof.
  intros Hbot. apply equal_DEFAULT_BOT_UID in Hbot.
  destruct (to_Z_Some _ _ Hbot) as (q & -> & Hq).
  rewrite (in_range_integer q 12345 Hq). reflexivity.
Qed.

Lemma bot_string_valid (s : jsstring) (w : world) :
  negb (isNaN (parseInt_string s 10))
  && JsNumber.equal (parseInt_string s 10) DEFAULT_BOT_UID = true ->
  isValidWebSDKUID (VString s) w = (Normal true, w).
Proof.
  rewrite isBotUser_string_parse. intros Hbot.
  apply bool_decide_eq_true in Hbot.
  apply visible_valid, (StringToMathInt_visible s _ Hbot).
Qed.

(** What isValidWebSDKUID rejects, isBotUser does not accept. *)
Lemma invalid_not_bot (w : world) (v : value) :
  eval (isValidWebSDKUID v) w = Normal false ->
  eval (isBotUser v) w <> Normal true.
Proof.
  intros Hinvalid Hbot. unfold eval in *.
  destruct v as [| | |n|s| | |]; try discriminate Hbot.
  - rewrite isBotUser_number in Hbot. injection Hbot as Hbot.
    rewrite isValidWebSDKUID_number, (bot_number_valid n Hbot) in Hinvalid.
    discriminate Hinvalid.
  - rewrite isBotUser_string in Hbot. injection Hbot as Hbot.
    rewrite (bot_string_valid s w Hbot) in Hinvalid. discriminate Hinvalid.
Qed.

(** X3.  Whatever isBotUser accepts, isValidWebSDKUID accepts. *)
Theorem isBotUser_valid (w : world) (v : value) :
  eval (isBotUser v) w = Normal true ->
  eval (isValidWebSDKUID v) w = Normal true.
Proof.
  intros Hbot.
  destruct (decide (typeof v = TNumber)) as [Hn|Hn];
    [|destruct (decide (typeof v = TString)) as [Hs|Hs]].
  - destruct v as [| | |n| | | |]; try discriminate Hn.
    unfold eval in *. rewrite isBotUser_number in Hbot.
    injection Hbot as Hbot.
    rewrite isValidWebSDKUID_number, (bot_number_valid n Hbot). reflexivity.
  - destruct v as [| | | |s| | |]; try discriminate Hs.
    unfold eval in *. rewrite isBotUser_string in Hbot.
    injection Hbot as Hbot.
    rewrite (bot_string_valid s w Hbot). reflexivity.
  - destruct (isBotUser_other v w Hn Hs) as (w' & Hrun & _).
    unfold eval in Hbot. rewrite Hrun in Hbot. discriminate Hbot.
Qed.

(** Two numbers that are equal are equal to the same numbers. *)
Lemma equal_congruence (m n x : number) :
  JsNumber.equal m n = true -> JsNumber.equal m x = JsNumber.equal n x.
Proof.
  destruct m as [| | |p], n as [| | |q]; simpl; try discriminate;
    try reflexivity.
  intros Hpq. apply Qeq_bool_iff in Hpq.
  apply (equal_Qeq_l p q x Hpq).
Qed.

Lemma equal_true_not_NaN (m n : number) :
  JsNumber.equal m n = true -> isNaN m = false /\ isNaN n = false.
Proof. destruct m, n; simpl; try discriminate; auto. Qed.

(** X4.  Two UIDs, each a number or a string, that compareUIDs finds equal
    are both the bot or both not. *)
Theorem compareUIDs_respects_isBotUser (w : world) (a b : value) :
  typeof a = TNumber \/ typeof a = TString ->
  typeof b = TNumber \/ typeof b = TString ->
  eval (compareUIDs a b) w = Normal true ->
  eval (isBotUser a) w = eval (isBotUser b) w.
Proof.
  intros Ha Hb.
  destruct a as [| | |m|s| | |]; try (destruct Ha; discriminate);
    destruct b as [| | |n|t| | |]; try (destruct Hb; discriminate);
    unfold eval.
  - rewrite compareUIDs_numbers, !isBotUser_number. cbn [fst].
    intros [= Heq]. rewrite (equal_congruence m n _ Heq). reflexivity.
  - rewrite compareUIDs_number_string, isBotUser_number, isBotUser_string.
    cbn [fst]. intros [= Heq].
    destruct (isNaN m || isNaN (parseInt_string t 10)); [discriminate|].
    destruct (equal_true_not_NaN _ _ Heq) as [_ ->].
    rewrite (equal_congruence m _ _ Heq). reflexivity.
  - rewrite compareUIDs_string_number, isBotUser_number, isBotUser_string.
    cbn [fst]. intros [= Heq].
    destruct (isNaN (parseInt_string s 10) || isNaN n); [discriminate|].
    destruct (equal_true_not_NaN _ _ Heq) as [-> _].
    rewrite (equal_congruence _ n _ Heq). reflexivity.
  - rewrite compareUIDs_strings, eqb_bool_decide. cbn [fst].
    intros [= Heq]. apply bool_decide_eq_true in Heq. subst t. reflexivity.
Qed.

End PredicateProperties.

Section ParseProperties.
Context {E : Engine}.

Lemma Number_toString_integer (z : Z) :
  Z.abs z < 2 ^ 53 -> Number_toString (of_Z z) = decimal_of_Z z.
Proof.
  intros Hz. unfold Number_toString, of_Z at 1.
  change (Finite (inject_Z z)) with (of_Z z). rewrite to_Z_of_Z.
  destruct (Z.ltb_spec (Z.abs z) (2 ^ 53)); [reflexivity | lia].
Qed.

(** X5.  An integer that is a double (below 2^53 in magnitude) compares
    equal to the string that shows it, in either order; and that string is
    a valid UID whether or not the integer is in the range of valid
    numbers. *)
Theorem compareUIDs_shown_integer (w : world) (z : Z) :
  Z.abs z < 2 ^ 53 ->
  compareUIDs (VNumber (of_Z z)) (VString (Number_toString (of_Z z))) w
  = (Normal true, w)
  /\ compareUIDs (VString (Number_toString (of_Z z))) (VNumber (of_Z z)) w
     = (Normal true, w)
  /\ isValidWebSDKUID (VString (Number_toString (of_Z z))) w
     = (Normal true, w).
Proof.
  intros Hz.
  pose proof (parseInt_of_shown_integer z Hz) as Hparse.
  rewrite compareUIDs_number_string, compareUIDs_string_number, Hparse.
  unfold of_Z at 1 3. cbn [isNaN orb].
  change (Finite (inject_Z z)) with (of_Z z).
  rewrite equal_of_Z, bool_decide_eq_true_2 by reflexivity.
  split; [reflexivity|]. split; [reflexivity|].
  apply visible_valid.
  rewrite Number_toString_integer by exact Hz.
  apply (StringToMathInt_visible _ z), StringToMathInt_decimal_of_Z.
Qed.

Lemma trim_start_whitespace (ws s : jsstring) :
  Forall (fun c => is_whitespace c = true) ws ->
  trim_start (ws ++ s) = trim_start s.
Proof.
  induction 1 as [|c ws Hc _ IH]; simpl; [reflexivity|].
  rewrite Hc. exact IH.
Qed.

(** X6.  White space before the digits does not count: such a string is
    the bot, and compares equal to a number, exactly when the string
    without it does. *)
Theorem leading_whitespace_ignored (w : world) (ws s : jsstring) :
  Forall (fun c => is_whitespace c = true) ws ->
  isBotUser (VString (ws ++ s)) w = isBotUser (VString s) w
  /\ forall n : number,
       compareUIDs (VString (ws ++ s)) (VNumber n) w
       = compareUIDs (VString s) (VNumber n) w
       /\ compareUIDs (VNumber n) (VString (ws ++ s)) w
          = compareUIDs (VNumber n) (VString s) w.
Proof.
  intros Hws.
  assert (parseInt_string (ws ++ s) 10 = parseInt_string s 10) as Hparse.
  { unfold parseInt_string. rewrite !StringToMathInt_10.
    rewrite (trim_start_whitespace ws s Hws). reflexivity. }
  split.
  - rewrite !isBotUser_string, Hparse. reflexivity.
  - intros n.
    rewrite !compareUIDs_string_number, !compareUIDs_number_string, Hparse.
    split; reflexivity.
Qed.

Lemma compareUIDs_operand_NaN (v : value) (w : world) :
  v = VUndefined \/ v = VNull \/ (exists b, v = VBoolean b) ->
  compareUIDs_operand v w = (Normal NaN, w).
Proof.
  intros [-> | [-> | [[|] ->]]]; reflexivity.
Qed.

(** X7.  undefined, null, true and false compare equal to themselves and
    to nothing else: not to a number, not to a string such as "null", not
    to an object. *)
Theorem compareUIDs_nullish (w : world) (v u : value) :
  v = VUndefined \/ v = VNull \/ (exists b, v = VBoolean b) ->
  exists r : bool,
    eval (compareUIDs v u) w = Normal r
    /\ eval (compareUIDs u v) w = Normal r
    /\ (r = true <-> u = v).
Proof.
  intros Hv.
  destruct (decide (typeof v = typeof u)) as [Hty|Hty].
  - exists (strict_equals v u). unfold eval.
    rewrite (compareUIDs_same_type v u w Hty).
    rewrite (compareUIDs_same_type u v w (eq_sym Hty)).
    rewrite (strict_equals_sym u v).
    split; [reflexivity|]. split; [reflexivity|].
    destruct Hv as [-> | [-> | [b ->]]]; destruct u; simpl in *;
      try discriminate Hty;
      try (split; [reflexivity | discriminate]);
      try (split; [discriminate | discriminate]);
      try (split; [reflexivity | reflexivity]).
    destruct b, b0; simpl; split; intros; first [reflexivity | discriminate].
  - exists false.
    rewrite (compareUIDs_mixed v u w Hty).
    rewrite (compareUIDs_mixed u v w) by congruence.
    assert (eval (compareUIDs_operand v) w = Normal NaN) as ->
      by (unfold eval; rewrite (compareUIDs_operand_NaN v w Hv); reflexivity).
    split; [destruct (eval (compareUIDs_operand u) w); reflexivity|].
    split.
    { destruct (eval (compareUIDs_operand u) w) as [m|]; [|reflexivity].
      cbn [isNaN]. rewrite orb_true_r. reflexivity. }
    split; [discriminate|]. intros ->. congruence.
Qed.

(** X8.  A BigInt is not a UID for isBotUser, which rejects every BigInt,
    but compareUIDs reads it through its digits: it compares equal to the
    number of the same value.  The two functions disagree on 12345n. *)
Theorem bigint_compared_not_bot (w : world) (z k : Z) :
  Z.abs k < 2 ^ 53 ->
  eval (compareUIDs (VBigInt z) (VNumber (of_Z k))) w
  = Normal (bool_decide (z = k))
  /\ eval (isBotUser (VBigInt z)) w = Normal false.
Proof.
  intros Hk. split; [|reflexivity].
  rewrite compareUIDs_mixed by discriminate.
  unfold eval, compareUIDs_operand. rewrite parseInt_run.
  cbn [fst ToString eval ret]. unfold parseInt_string.
  rewrite StringToMathInt_decimal_of_Z, round_to_double_not_NaN.
  unfold of_Z at 1. cbn [isNaN orb negb andb].
  change (Finite (inject_Z k)) with (of_Z k).
  rewrite round_to_double_equal by assumption. reflexivity.
Qed.

End ParseProperties.

(** An instance of X3: the string " 12345abc". *)
Lemma isBotUser_valid_witness :
  eval (isBotUser (E := Samples.engine) (VString (js " 12345abc")))
    Samples.empty_world = Normal true
  /\ eval (isValidWebSDKUID (VString (js " 12345abc"))) Samples.empty_world
     = Normal true.
Proof.
  assert (eval (isBotUser (E := Samples.engine) (VString (js " 12345abc")))
            Samples.empty_world = Normal true) as Hbot
    by (vm_compute; reflexivity).
  split; [exact Hbot|].
  exact (isBotUser_valid (E := Samples.engine) Samples.empty_world _ Hbot).
Defined.

(** An instance of X4: the string "012345" and the number 12345. *)
Lemma compareUIDs_respects_isBotUser_witness :
  eval (compareUIDs (E := Samples.engine)
          (VString (js "012345")) (VNumber (of_Z 12345)))
    Samples.empty_world = Normal true
  /\ eval (isBotUser (E := Samples.engine) (VString (js "012345")))
       Samples.empty_world
     = eval (isBotUser (E := Samples.engine) (VNumber (of_Z 12345)))
         Samples.empty_world.
Proof.
  assert (eval (compareUIDs (E := Samples.engine)
                  (VString (js "012345")) (VNumber (of_Z 12345)))
            Samples.empty_world = Normal true) as Hcmp
    by (vm_compute; reflexivity).
  split; [exact Hcmp|].
  exact (compareUIDs_respects_isBotUser (E := Samples.engine)
           Samples.empty_world
           (VString (js "012345")) (VNumber (of_Z 12345))
           (or_intror eq_refl) (or_introl eq_refl) Hcmp).
Defined.

(** An instance of X2: the string "7". *)
Lemma compareUIDs_reflexive_but_NaN_witness :
  VString (js "7") <> VNumber NaN
  /\ compareUIDs (E := Samples.engine) (VString (js "7")) (VString (js "7"))
       Samples.empty_world
     = (Normal true, Samples.empty_world).
Proof.
  assert (VString (js "7") <> VNumber NaN) as Hne by discriminate.
  split; [exact Hne|].
  exact (proj1 (compareUIDs_reflexive_but_NaN (E := Samples.engine)
                  Samples.empty_world) _ Hne).
Defined.

(** An instance of X5: the integer -1, out of the range of valid numbers. *)
Lemma compareUIDs_shown_integer_witness :
  Z.abs (-1) < 2 ^ 53
  /\ compareUIDs (E := Samples.engine) (VNumber (of_Z (-1)))
       (VString (Number_toString (E := Samples.engine) (of_Z (-1))))
       Samples.empty_world
     = (Normal true, Samples.empty_world)
  /\ isValidWebSDKUID
       (VString (Number_toString (E := Samples.engine) (of_Z (-1))))
       Samples.empty_world
     = (Normal true, Samples.empty_world).
Proof.
  assert (Z.abs (-1) < 2 ^ 53) as Hz by reflexivity.
  split; [exact Hz|].
  destruct (compareUIDs_shown_integer (E := Samples.engine)
              Samples.empty_world (-1) Hz) as (H1 & _ & H3).
  split; [exact H1 | exact H3].
Defined.

(** An instance of X6: a tab and a space before "12345". *)
Lemma leading_whitespace_ignored_witness :
  Forall (fun c => is_whitespace c = true) [9%N; 32%N]
  /\ isBotUser (E := Samples.engine) (VString ([9%N; 32%N] ++ js "12345"))
       Samples.empty_world
     = isBotUser (E := Samples.engine) (VString (js "12345"))
         Samples.empty_world.
Proof.
  assert (Forall (fun c => is_whitespace c = true) [9%N; 32%N]) as Hws
    by (repeat constructor).
  split; [exact Hws|].
  exact (proj1 (leading_whitespace_ignored (E := Samples.engine)
                  Samples.empty_world _ (js "12345") Hws)).
Defined.

(** An instance of X7: null against the string "null". *)
Lemma compareUIDs_nullish_witness :
  (VNull = VUndefined \/ VNull = VNull \/ (exists b, VNull = VBoolean b))
  /\ exists r : bool,
       eval (compareUIDs (E := Samples.engine) VNull (VString (js "null")))
         Samples.empty_world = Normal r
       /\ (r = true <-> VString (js "null") = VNull).
Proof.
  assert (VNull = VUndefined \/ VNull = VNull
          \/ (exists b, VNull = VBoolean b)) as Hv
    by (right; left; reflexivity).
  split; [exact Hv|].
  destruct (compareUIDs_nullish (E := Samples.engine) Samples.empty_world
              VNull (VString (js "null")) Hv) as (r & H1 & _ & H3).
  exists r. split; [exact H1 | exact H3].
Defined.

(** An instance of X8: 12345n against 12345. *)
Lemma bigint_compared_not_bot_witness :
  Z.abs 12345 < 2 ^ 53
  /\ eval (compareUIDs (E := Samples.engine)
             (VBigInt 12345) (VNumber (of_Z 12345)))
       Samples.empty_world
     = Normal (bool_decide (12345 = 12345))
  /\ eval (isBotUser (E := Samples.engine) (VBigInt 12345))
       Samples.empty_world = Normal false.
Proof.
  assert (Z.abs 12345 < 2 ^ 53) as Hk by reflexivity.
  split; [exact Hk|].
  exact (bigint_compared_not_bot (E := Samples.engine)
           Samples.empty_world 12345 12345 Hk).
Defined.

(* ===================================================================== *)
(** ** Further properties of validateConfiguration *)
(* ===================================================================== *)

Section ValidateSteps.
Context {E : Engine}.

(** On a value that is not an object, the first [in] throws. *)
Lemma validateConfiguration_try_not_object
      (c : value) (r : ValidationResult) (w : world) :
  (forall l, c <> VObject l) ->
  validateConfiguration_try c (r, w)
  = (Throw (TypeError (InOperandNotObject (js "botUid") c)), (r, w)).
Proof.
  intros Hc. destruct c; try reflexivity. exfalso. eapply Hc. reflexivity.
Qed.

Lemma validateConfiguration_botUid_absent
      (l0 : loc) (r : ValidationResult) (w : world) :
  own_properties w l0 !! js "botUid" = None ->
  validateConfiguration_botUid (VObject l0) (r, w) = (Normal tt, (r, w)).
Proof.
  intros Hv. unfold validateConfiguration_botUid.
  rewrite (bind_normal _ _ _ _ _
             (lift_run _ _ _ _ _ (HasProperty_object _ _ _))).
  rewrite Hv.
  rewrite bool_decide_eq_false_2 by (intros [? ?]; discriminate).
  reflexivity.
Qed.

Lemma validateConfiguration_botUid_invalid
      (l0 : loc) (v : value) (r : ValidationResult) (w : world) :
  own_properties w l0 !! js "botUid" = Some v ->
  isValidWebSDKUID v w = (Normal false, w) ->
  validateConfiguration_botUid (VObject l0) (r, w)
  = match ToString v w with
    | (Normal shown, w') =>
        (Normal tt,
         (assign_isValid false
            (add_error (js "无效的botUid: " ++ shown) r), w'))
    | (Throw e, w') => (Throw e, (r, w'))
    end.
Proof.
  intros Hv Hvalid.
  assert (Get (VObject l0) (js "botUid") w = (Normal v, w)) as Hget
    by (rewrite Get_object, Hv; reflexivity).
  unfold validateConfiguration_botUid.
  rewrite (bind_normal _ _ _ _ _
             (lift_run _ _ _ _ _ (HasProperty_object _ _ _))).
  rewrite Hv.
  rewrite bool_decide_eq_true_2 by (eexists; reflexivity).
  rewrite (bind_normal _ _ _ _ _ (lift_run _ _ _ _ _ Hget)).
  rewrite (bind_normal _ _ _ _ _ (lift_run _ _ _ _ _ Hvalid)).
  cbn [negb].
  assert ((x <- Get (VObject l0) (js "botUid") ;; ToString x) w
          = ToString v w) as Hshow
    by (rewrite (bind_normal _ _ _ _ _ Hget); reflexivity).
  destruct (ToString v w) as [[shown|e] w'] eqn:Hto.
  - rewrite (bind_normal _ _ _ _ _ (lift_run _ _ _ _ _ Hshow)).
    reflexivity.
  - rewrite (bind_throw _ _ _ _ _ (lift_run _ _ _ _ _ Hshow)).
    reflexivity.
Qed.

Lemma validateConfiguration_botUid_is_bot
      (l0 : loc) (v : value) (r : ValidationResult) (w : world) :
  own_properties w l0 !! js "botUid" = Some v ->
  isValidWebSDKUID v w = (Normal true, w) ->
  isBotUser v w = (Normal true, w) ->
  validateConfiguration_botUid (VObject l0) (r, w) = (Normal tt, (r, w)).
Proof.
  intros Hv Hvalid Hbot.
  assert (Get (VObject l0) (js "botUid") w = (Normal v, w)) as Hget
    by (rewrite Get_object, Hv; reflexivity).
  unfold validateConfiguration_botUid.
  rewrite (bind_normal _ _ _ _ _
             (lift_run _ _ _ _ _ (HasProperty_object _ _ _))).
  rewrite Hv.
  rewrite bool_decide_eq_true_2 by (eexists; reflexivity).
  rewrite (bind_normal _ _ _ _ _ (lift_run _ _ _ _ _ Hget)).
  rewrite (bind_normal _ _ _ _ _ (lift_run _ _ _ _ _ Hvalid)).
  cbn [negb].
  rewrite (bind_normal _ _ _ _ _ (lift_run _ _ _ _ _ Hget)).
  rewrite (bind_normal _ _ _ _ _ (lift_run _ _ _ _ _ Hbot)).
  reflexivity.
Qed.

Lemma isBotUser_total (v : value) (w : world) :
  typeof v = TNumber \/ typeof v = TString ->
  exists b : bool, eval (isBotUser v) w = Normal b.
Proof.
  destruct v; simpl; intros [?|?]; try discriminate; eexists; reflexivity.
Qed.

(** The check of [botUid] leaves the world alone, and takes one step. *)
Lemma validateConfiguration_botUid_effect
      (l0 : loc) (r : ValidationResult) (w : world) :
  exists c r',
    validateConfiguration_botUid (VObject l0) (r, w) = (c, (r', w))
    /\ check_step r c r'.
Proof.
  destruct (own_properties w l0 !! js "botUid") as [v|] eqn:Hv.
  2: { rewrite validateConfiguration_botUid_absent by assumption.
       eexists _, _. split; [reflexivity | constructor]. }
  destruct (isValidWebSDKUID_total v w) as [[|] Hb].
  - pose proof (valid_number_or_string v w Hb) as Hty.
    destruct (isBotUser_total v w Hty) as [[|] Hbot].
    + rewrite (validateConfiguration_botUid_is_bot l0 v r w Hv)
        by (first [rewrite (isValidWebSDKUID_run v w w), Hb
                  | rewrite (isBotUser_run v w w Hty), Hbot]; reflexivity).
      eexists _, _. split; [reflexivity | constructor].
    + destruct (ToString_run v w w Hty) as (shown & _ & Hshown).
      rewrite (validateConfiguration_botUid_warns l0 v shown r w Hv)
        by (first [rewrite (isValidWebSDKUID_run v w w), Hb; reflexivity
                  | rewrite (isBotUser_run v w w Hty), Hbot; reflexivity
                  | exact Hshown]).
      eexists _, _. split; [reflexivity | constructor].
  - rewrite (validateConfiguration_botUid_invalid l0 v r w Hv)
      by (rewrite (isValidWebSDKUID_run v w w), Hb; reflexivity).
    pose proof (ToString_world v w) as Hw.
    destruct (ToString v w) as [[shown|e] w']; simpl in Hw; subst w';
      eexists _, _; (split; [reflexivity | constructor]).
Qed.

(** The check of [uid] leaves the world alone, and takes one step that is
    not a warning. *)
Lemma validateConfiguration_uid_effect
      (l0 : loc) (r : ValidationResult) (w : world) :
  exists c r',
    validateConfiguration_uid (VObject l0) (r, w) = (c, (r', w))
    /\ check_step r c r'
    /\ warnings r' = warnings r.
Proof.
  destruct (own_properties w l0 !! js "uid") as [u|] eqn:Hu.
  2: { rewrite validateConfiguration_uid_absent by assumption.
       eexists _, _. split; [reflexivity|]. split; [constructor|reflexivity]. }
  destruct (isValidWebSDKUID_total u w) as [b Hb].
  rewrite (validateConfiguration_uid_present l0 u b r w Hu)
    by (rewrite (isValidWebSDKUID_run u w w), Hb; reflexivity).
  destruct b.
  - eexists _, _. split; [reflexivity|]. split; [constructor|reflexivity].
  - pose proof (ToString_world u w) as Hw.
    destruct (ToString u w) as [[shown|e] w']; simpl in Hw; subst w';
      eexists _, _;
      (split; [reflexivity|]; split; [constructor|reflexivity]).
Qed.

End ValidateSteps.

Section ValidateProperties.
Context {E : Engine}.

(** validateConfiguration on an object, as its two checks in a row. *)
Lemma validateConfiguration_two_checks (l0 : loc) (w : world) :
  let l := fresh (dom (heap w)) in
  let w0 := World (<[l := enumerable_own_properties w (VObject l0)]> (heap w))
                  (console w) in
  exists c1 r1 c2 r2,
    validateConfiguration_botUid (VObject l0) (initial_result (VObject l), w0)
    = (c1, (r1, w0))
    /\ check_step (initial_result (VObject l)) c1 r1
    /\ validateConfiguration_uid (VObject l0) (r1, w0) = (c2, (r2, w0))
    /\ check_step r1 c2 r2
    /\ warnings r2 = warnings r1
    /\ validateConfiguration (VObject l0) w
       = (Normal match c1 with
                 | Throw e => caught r1 e
                 | Normal _ => match c2 with
                               | Throw e => caught r2 e
                               | Normal _ => r2
                               end
                 end, w0).
Proof.
  intros l w0.
  destruct (validateConfiguration_botUid_effect l0
              (initial_result (VObject l)) w0) as (c1 & r1 & H1 & Hs1).
  destruct (validateConfiguration_uid_effect l0 r1 w0)
    as (c2 & r2 & H2 & Hs2 & Hw2).
  exists c1, r1, c2, r2. repeat (split; [assumption|]).
  rewrite validateConfiguration_of_try. fold l. fold w0.
  unfold validateConfiguration_try.
  destruct c1 as [[]|e1].
  - rewrite (bind_normal _ _ _ _ _ H1), H2. destruct c2 as [[]|e2]; reflexivity.
  - rewrite (bind_throw _ _ _ _ _ H1). reflexivity.
Qed.

Lemma own_properties_after_copy
      (w : world) (l0 : loc) (o x : gmap jsstring value)
      (c : list (log_level * list logged)) :
  heap w !! l0 = Some o ->
  own_properties (World (<[fresh (dom (heap w)) := x]> (heap w)) c) l0 = o.
Proof.
  intros Hl0. unfold own_properties. cbn [heap].
  pose proof (fresh_location w) as Hfresh.
  rewrite lookup_insert_ne by congruence. rewrite Hl0. reflexivity.
Qed.

(** Shape of every result, and the world that validateConfiguration
    leaves. *)
Lemma validateConfiguration_summary (c : value) (w : world) :
  exists r : ValidationResult,
    validateConfiguration c w
    = (Normal r,
       World (<[fresh (dom (heap w)) := enumerable_own_properties w c]>
                (heap w)) (console w))
    /\ (isValid r = true <-> errors r = [])
    /\ (length (errors r) <= 2)%nat
    /\ (length (warnings r) <= 1)%nat.
Proof.
  destruct c as [| |b|n|s|i|z|l0].
  1-7: rewrite validateConfiguration_of_try;
       rewrite validateConfiguration_try_not_object by (intros ?; discriminate);
       eexists; (split; [reflexivity|]);
       cbn [isValid errors warnings caught assign_isValid add_error
            initial_result app length];
       (split; [split; discriminate|]); split; lia.
  destruct (validateConfiguration_two_checks l0 w)
    as (c1 & r1 & c2 & r2 & _ & Hs1 & _ & Hs2 & Hw2 & Hrun).
  eexists. split; [exact Hrun|].
  inversion Hs1; subst; inversion Hs2; subst; clear Hs1 Hs2;
    cbn [isValid errors warnings caught assign_isValid add_error add_warning
         initial_result app length] in *;
    try (apply (f_equal (@length _)) in Hw2; rewrite ?length_app in Hw2;
         simpl in Hw2; lia);
    (split; [split; first [reflexivity | discriminate
                          | intros H; apply (f_equal (@length _)) in H;
                            rewrite ?length_app in H; simpl in H; lia]|]);
    split; rewrite ?length_app; simpl; lia.
Qed.

(** X11.  In every result of validateConfiguration, [isValid] is true
    exactly when [errors] is empty; there are at most two errors and at
    most one warning. *)
Theorem validateConfiguration_result_shape (w : world) (c : value) :
  exists (r : ValidationResult) (w' : world),
    validateConfiguration c w = (Normal r, w')
    /\ (isValid r = true <-> errors r = [])
    /\ (length (errors r) <= 2)%nat
    /\ (length (warnings r) <= 1)%nat.
Proof.
  destruct (validateConfiguration_summary c w) as (r & Hrun & Hshape).
  exists r. eexists. split; [exact Hrun | exact Hshape].
Qed.

(** X12.  validateConfiguration writes nothing to the console, whatever
    the configuration holds, and all it does to the heap is to add the
    copy. *)
Theorem validateConfiguration_silent (w : world) (c : value) :
  console (exec (validateConfiguration c) w) = console w
  /\ heap (exec (validateConfiguration c) w)
     = <[fresh (dom (heap w)) := enumerable_own_properties w c]> (heap w).
Proof.
  destruct (validateConfiguration_summary c w) as (r & Hrun & _).
  unfold exec. rewrite Hrun. split; reflexivity.
Qed.

(** X9.  A configuration that is not an object (null, undefined, a number,
    a string, ...) makes the first [in] throw: the result is invalid, with
    the message of that failure as its one error and no warning. *)
Theorem validateConfiguration_not_object (w : world) (c : value) :
  (forall l, c <> VObject l) ->
  exists r : ValidationResult,
    eval (validateConfiguration c) w = Normal r
    /\ isValid r = false
    /\ errors r
       = [js "配置验证异常: "
          ++ TypeError_message (InOperandNotObject (js "botUid") c)]
    /\ warnings r = [].
Proof.
  intros Hc. unfold eval. rewrite validateConfiguration_of_try.
  rewrite validateConfiguration_try_not_object by assumption.
  eexists. split; [reflexivity|]. repeat split.
Qed.

End ValidateProperties.

(** An instance of X9: null. *)
Lemma validateConfiguration_not_object_witness :
  (forall l, VNull <> VObject l)
  /\ exists r : ValidationResult,
       eval (validateConfiguration (E := Samples.engine) VNull)
         Samples.empty_world = Normal r
       /\ isValid r = false /\ length (errors r) = 1%nat.
Proof.
  assert (forall l, VNull <> VObject l) as Hc by (intros l; discriminate).
  split; [exact Hc|].
  destruct (validateConfiguration_not_object (E := Samples.engine)
              Samples.empty_world VNull Hc) as (r & Hrun & Hv & He & _).
  exists r. split; [exact Hrun|]. split; [exact Hv|].
  rewrite He. reflexivity.
Defined.

Section ValidateCases.
Context {E : Engine}.

(** Showing a value that is not a dangling reference does not depend on
    the copy that validateConfiguration has added to the heap. *)
Lemma ToString_after_copy
      (w : world) (v : value) (x : gmap jsstring value)
      (c : list (log_level * list logged)) :
  (forall l, v = VObject l -> is_Some (heap w !! l)) ->
  ToString v (World (<[fresh (dom (heap w)) := x]> (heap w)) c)
  = (eval (ToString v) w,
     World (<[fresh (dom (heap w)) := x]> (heap w)) c).
Proof.
  intros Hv. destruct v as [| | | | | | |l]; try reflexivity.
  destruct (Hv l eq_refl) as [o Ho].
  unfold ToString, bind, get, eval.
  rewrite (own_properties_after_copy w l o x c Ho).
  unfold own_properties. rewrite Ho.
  change (default ∅ (Some o)) with o.
  destruct (o !! js "toString"); reflexivity.
Qed.

(** X10.  A configuration object is accepted without a warning exactly
    when its [botUid] is absent or is the bot, and its [uid] is absent or
    valid; the empty object is. *)
Theorem validateConfiguration_accepts_silently
        (w : world) (l0 : loc) (o : gmap jsstring value) :
  heap w !! l0 = Some o ->
  exists r : ValidationResult,
    eval (validateConfiguration (VObject l0)) w = Normal r
    /\ ((isValid r = true /\ errors r = [] /\ warnings r = [])
        <-> match o !! js "botUid" with
            | None => True
            | Some v => eval (isBotUser v) w = Normal true
            end
            /\ match o !! js "uid" with
               | None => True
               | Some u => eval (isValidWebSDKUID u) w = Normal true
               end).
Proof.
  intros Hl0.
  destruct (validateConfiguration_two_checks l0 w)
    as (c1 & r1 & c2 & r2 & H1 & Hs1 & H2 & Hs2 & Hw2 & Hrun).
  cbv zeta in *.
  set (l := fresh (dom (heap w))) in *.
  set (w0 := World _ _) in *.
  assert (own_properties w0 l0 = o) as Hown
    by (apply own_properties_after_copy; exact Hl0).
  unfold eval at 1. rewrite Hrun. eexists. split; [reflexivity|].
  (* the check of uid, from a result that is still clean *)
  assert (r1 = initial_result (VObject l) -> c1 = Normal tt ->
          ((isValid r2 = true /\ errors r2 = [] /\ warnings r2 = []
            /\ c2 = Normal tt)
           <-> match o !! js "uid" with
               | None => True
               | Some u => eval (isValidWebSDKUID u) w = Normal true
               end)) as Huid.
  { intros -> ->.
    destruct (o !! js "uid") as [u|] eqn:Hu.
    - destruct (isValidWebSDKUID_total u w) as [b Hb].
      rewrite (validateConfiguration_uid_present l0 u b) in H2
        by (first [rewrite Hown; exact Hu
                  | rewrite (isValidWebSDKUID_run u w w0), Hb; reflexivity]).
      rewrite Hb. destruct b.
      + injection H2 as <- <-. split; [reflexivity | repeat split].
      + split; [|discriminate].
        destruct (ToString u w0) as [[shown|e] w']; injection H2 as <- <- _.
        * intros (Hflag & _). discriminate Hflag.
        * intros (_ & _ & _ & Hc). discriminate Hc.
    - rewrite validateConfiguration_uid_absent in H2
        by (rewrite Hown; exact Hu).
      injection H2 as <- <-. split; [reflexivity | repeat split]. }
  destruct (o !! js "botUid") as [v|] eqn:Hv.
  - destruct (isValidWebSDKUID_total v w) as [[|] Hbv].
    + pose proof (valid_number_or_string v w Hbv) as Hty.
      destruct (isBotUser_total v w Hty) as [[|] Hbb].
      * rewrite (validateConfiguration_botUid_is_bot l0 v) in H1
          by (first [rewrite Hown; exact Hv
                    | rewrite (isValidWebSDKUID_run v w w0), Hbv; reflexivity
                    | rewrite (isBotUser_run v w w0 Hty), Hbb; reflexivity]).
        injection H1 as <- <-. specialize (Huid eq_refl eq_refl).
        rewrite <- Huid. split.
        -- intros Hclean. split; [exact Hbb|].
           destruct c2 as [[]|e]; [tauto|].
           destruct Hclean as [Hclean _]. discriminate Hclean.
        -- intros [_ (? & ? & ? & ->)]. tauto.
      * destruct (ToString_run v w w0 Hty) as (shown & _ & Hshown).
        rewrite (validateConfiguration_botUid_warns l0 v shown) in H1
          by (first [rewrite Hown; exact Hv
                    | rewrite (isValidWebSDKUID_run v w w0), Hbv; reflexivity
                    | rewrite (isBotUser_run v w w0 Hty), Hbb; reflexivity
                    | exact Hshown]).
        injection H1 as <- <-. rewrite Hbb.
        split; [|intros [Hb _]; discriminate Hb].
        intros (_ & _ & Hwarn). exfalso.
        destruct c2 as [[]|e];
          cbn [warnings caught assign_isValid add_error] in Hwarn;
          rewrite Hw2 in Hwarn; discriminate Hwarn.
    + pose proof (invalid_not_bot w v Hbv) as Hnot.
      split; [|intros [Hb _]; contradiction].
      intros (Hvalid & _). exfalso.
      rewrite (validateConfiguration_botUid_invalid l0 v) in H1
        by (first [rewrite Hown; exact Hv
                  | rewrite (isValidWebSDKUID_run v w w0), Hbv; reflexivity]).
      destruct (ToString v w0) as [[shown|e] w']; injection H1 as <- <- _;
        [|discriminate Hvalid].
      inversion Hs2; subst; discriminate Hvalid.
  - rewrite validateConfiguration_botUid_absent in H1
      by (rewrite Hown; exact Hv).
    injection H1 as <- <-. specialize (Huid eq_refl eq_refl).
    rewrite <- Huid. split.
    + intros Hclean. split; [exact I|].
      destruct c2 as [[]|e]; [tauto|].
      destruct Hclean as [Hclean _]. discriminate Hclean.
    + intros [_ (? & ? & ? & ->)]. tauto.
Qed.

(** X13.  An invalid [botUid] that can be shown gives an error that names
    it, first in the list, lowers the flag and never gives a warning,
    whatever [uid] holds; at most one more error follows. *)
Theorem validateConfiguration_invalid_botUid
        (w : world) (l0 : loc) (o : gmap jsstring value)
        (v : value) (shown : jsstring) :
  heap w !! l0 = Some o ->
  o !! js "botUid" = Some v ->
  (forall l, v = VObject l -> is_Some (heap w !! l)) ->
  eval (isValidWebSDKUID v) w = Normal false ->
  eval (ToString v) w = Normal shown ->
  exists (r : ValidationResult) (rest : list jsstring),
    eval (validateConfiguration (VObject l0)) w = Normal r
    /\ isValid r = false
    /\ errors r = (js "无效的botUid: " ++ shown) :: rest
    /\ (length rest <= 1)%nat
    /\ warnings r = [].
Proof.
  intros Hl0 Hv Hwf Hbv Hshown.
  destruct (validateConfiguration_two_checks l0 w)
    as (c1 & r1 & c2 & r2 & H1 & Hs1 & H2 & Hs2 & Hw2 & Hrun).
  cbv zeta in *.
  set (l := fresh (dom (heap w))) in *.
  set (w0 := World _ _) in *.
  assert (own_properties w0 l0 = o) as Hown
    by (apply own_properties_after_copy; exact Hl0).
  unfold eval at 1. rewrite Hrun. cbn [fst].
  rewrite (validateConfiguration_botUid_invalid l0 v) in H1
    by (first [rewrite Hown; exact Hv
              | rewrite (isValidWebSDKUID_run v w w0), Hbv; reflexivity]).
  unfold w0 in H1 at 1. rewrite (ToString_after_copy w v _ _ Hwf) in H1.
  rewrite Hshown in H1. injection H1 as <- <-.
  inversion Hs2; subst;
    cbn [warnings errors isValid caught assign_isValid add_error add_warning
         initial_result app] in *.
  - eexists _, []. repeat split. simpl. lia.
  - apply (f_equal (@length _)) in Hw2. simpl in Hw2. lia.
  - eexists _, [_]. repeat split. simpl. lia.
  - eexists _, [_]. repeat split. simpl. lia.
Qed.

(** X14.  When [botUid] is a symbol, showing it in the error message
    throws: the result has the message of that failure as its only error,
    and [uid] is not checked at all. *)
Theorem validateConfiguration_symbol_botUid
        (w : world) (l0 : loc) (o : gmap jsstring value) (id : positive) :
  heap w !! l0 = Some o ->
  o !! js "botUid" = Some (VSymbol id) ->
  exists r : ValidationResult,
    eval (validateConfiguration (VObject l0)) w = Normal r
    /\ isValid r = false
    /\ errors r = [js "配置验证异常: " ++ TypeError_message SymbolToString]
    /\ warnings r = [].
Proof.
  intros Hl0 Hv.
  destruct (validateConfiguration_two_checks l0 w)
    as (c1 & r1 & c2 & r2 & H1 & _ & _ & _ & _ & Hrun).
  cbv zeta in *.
  set (l := fresh (dom (heap w))) in *.
  set (w0 := World _ _) in *.
  assert (own_properties w0 l0 = o) as Hown
    by (apply own_properties_after_copy; exact Hl0).
  unfold eval. rewrite Hrun. cbn [fst].
  rewrite (validateConfiguration_botUid_invalid l0 (VSymbol id)) in H1
    by (first [rewrite Hown; exact Hv | reflexivity]).
  cbn [ToString throw] in H1. injection H1 as <- <-.
  eexists. repeat split.
Qed.

(** X15.  An integer [uid] out of the range and below 2^53 in magnitude,
    in a configuration without [botUid], gives one error, which shows the
    integer in decimal. *)
Theorem validateConfiguration_uid_out_of_range
        (w : world) (l0 : loc) (o : gmap jsstring value) (z : Z) :
  heap w !! l0 = Some o ->
  o !! js "botUid" = None ->
  o !! js "uid" = Some (VNumber (of_Z z)) ->
  z < 1 \/ 2 ^ 32 - 1 < z ->
  Z.abs z < 2 ^ 53 ->
  exists r : ValidationResult,
    eval (validateConfiguration (VObject l0)) w = Normal r
    /\ isValid r = false
    /\ errors r = [js "无效的uid: " ++ decimal_of_Z z]
    /\ warnings r = [].
Proof.
  intros Hl0 Hv Hu Hz Hshow.
  destruct (validateConfiguration_two_checks l0 w)
    as (c1 & r1 & c2 & r2 & H1 & _ & H2 & _ & _ & Hrun).
  cbv zeta in *.
  set (l := fresh (dom (heap w))) in *.
  set (w0 := World _ _) in *.
  assert (own_properties w0 l0 = o) as Hown
    by (apply own_properties_after_copy; exact Hl0).
  unfold eval. rewrite Hrun. cbn [fst].
  rewrite validateConfiguration_botUid_absent in H1
    by (rewrite Hown; exact Hv).
  injection H1 as <- <-.
  rewrite (validateConfiguration_uid_present l0 (VNumber (of_Z z)) false)
    in H2.
  - cbn [ToString ret] in H2. rewrite Number_toString_integer in H2
      by assumption.
    injection H2 as <- <-. eexists. repeat split.
  - rewrite Hown. exact Hu.
  - rewrite isValidWebSDKUID_number.
    change (of_Z z) with (Finite (inject_Z z)).
    rewrite (in_range_integer (inject_Z z) z) by reflexivity.
    rewrite bool_decide_eq_false_2 by lia. reflexivity.
Qed.

End ValidateCases.

(** An instance of X10: [{ uid: 5, botUid: 12345 }]. *)
Lemma validateConfiguration_accepts_silently_witness :
  heap MoreSamples.world_uid5_bot !! 1%positive
  = Some {[ js "uid" := VNumber (of_Z 5);
            js "botUid" := VNumber (of_Z 12345) ]}
  /\ exists r : ValidationResult,
       eval (validateConfiguration (E := Samples.engine) (VObject 1))
         MoreSamples.world_uid5_bot = Normal r
       /\ isValid r = true /\ errors r = [] /\ warnings r = [].
Proof.
  assert (heap MoreSamples.world_uid5_bot !! 1%positive
          = Some {[ js "uid" := VNumber (of_Z 5);
                    js "botUid" := VNumber (of_Z 12345) ]}) as Hl0
    by reflexivity.
  split; [exact Hl0|].
  destruct (validateConfiguration_accepts_silently (E := Samples.engine)
              MoreSamples.world_uid5_bot 1 _ Hl0) as (r & Hrun & Hiff).
  exists r. split; [exact Hrun|].
  apply Hiff. split; vm_compute; reflexivity.
Defined.

(** An instance of X13: [{ botUid: 0, uid: "" }], two errors. *)
Lemma validateConfiguration_invalid_botUid_witness :
  heap MoreSamples.world_bot0 !! 1%positive
  = Some {[ js "botUid" := VNumber (of_Z 0); js "uid" := VString [] ]}
  /\ exists (r : ValidationResult) (rest : list jsstring),
       eval (validateConfiguration (E := Samples.engine) (VObject 1))
         MoreSamples.world_bot0 = Normal r
       /\ isValid r = false
       /\ errors r = (js "无效的botUid: " ++ js "0") :: rest
       /\ warnings r = [].
Proof.
  assert (heap MoreSamples.world_bot0 !! 1%positive
          = Some {[ js "botUid" := VNumber (of_Z 0);
                    js "uid" := VString [] ]}) as Hl0
    by reflexivity.
  split; [exact Hl0|].
  destruct (validateConfiguration_invalid_botUid (E := Samples.engine)
              MoreSamples.world_bot0 1 _ (VNumber (of_Z 0)) (js "0") Hl0)
    as (r & rest & Hrun & Hflag & Herr & _ & Hwarn);
    try (vm_compute; reflexivity).
  { intros l Hl. discriminate Hl. }
  exists r, rest. repeat split; assumption.
Defined.

(** An instance of X14: [{ botUid: Symbol(), uid: -1 }]. *)
Lemma validateConfiguration_symbol_botUid_witness :
  heap MoreSamples.world_bot_symbol !! 1%positive
  = Some {[ js "botUid" := VSymbol 1; js "uid" := VNumber (of_Z (-1)) ]}
  /\ exists r : ValidationResult,
       eval (validateConfiguration (E := Samples.engine) (VObject 1))
         MoreSamples.world_bot_symbol = Normal r
       /\ isValid r = false
       /\ length (errors r) = 1%nat.
Proof.
  assert (heap MoreSamples.world_bot_symbol !! 1%positive
          = Some {[ js "botUid" := VSymbol 1;
                    js "uid" := VNumber (of_Z (-1)) ]}) as Hl0
    by reflexivity.
  split; [exact Hl0|].
  destruct (validateConfiguration_symbol_botUid (E := Samples.engine)
              MoreSamples.world_bot_symbol 1 _ 1%positive Hl0)
    as (r & Hrun & Hflag & Herr & _);
    try (vm_compute; reflexivity).
  exists r. split; [exact Hrun|]. split; [exact Hflag|].
  rewrite Herr. reflexivity.
Defined.

(** An instance of X15: [{ uid: -1 }]. *)
Lemma validateConfiguration_uid_out_of_range_witness :
  heap MoreSamples.world_uidm1 !! 1%positive
  = Some {[ js "uid" := VNumber (of_Z (-1)) ]}
  /\ exists r : ValidationResult,
       eval (validateConfiguration (E := Samples.engine) (VObject 1))
         MoreSamples.world_uidm1 = Normal r
       /\ isValid r = false
       /\ errors r = [js "无效的uid: -1"]
       /\ warnings r = [].
Proof.
  assert (heap MoreSamples.world_uidm1 !! 1%positive
          = Some {[ js "uid" := VNumber (of_Z (-1)) ]}) as Hl0
    by reflexivity.
  split; [exact Hl0|].
  destruct (validateConfiguration_uid_out_of_range (E := Samples.engine)
              MoreSamples.world_uidm1 1 _ (-1) Hl0 eq_refl eq_refl
              (or_introl eq_refl) eq_refl)
    as (r & Hrun & Hflag & Herr & Hwarn).
  exists r. repeat split; assumption.
Defined.

(* ===================================================================== *)
(** ** Properties of logUIDInfo *)
(* ===================================================================== *)

Section LogUIDInfo.
Context {E : Engine}.

(** isBotUser always returns, and touches the console only. *)
Lemma isBotUser_returns (v : value) (w : world) :
  exists (b : bool) (w1 : world),
    isBotUser v w = (Normal b, w1) /\ heap w1 = heap w.
Proof.
  destruct v; eexists _, _; (split; [reflexivity | reflexivity]).
Qed.

(** X16.  logUIDInfo has no [try]: with a symbol for [context] it throws
    the TypeError of the conversion to a string, and it does so before
    anything is written, to the output or to the console. *)
Theorem logUIDInfo_symbol_context
        (id : positive) (uid additionalInfo : value)
        (out : list (list logged)) (w : world) :
  exists w' : world,
    logUIDInfo (VSymbol id) uid additionalInfo (out, w)
    = (Throw (TypeError SymbolToString), (out, w'))
    /\ console w' = console w.
Proof.
  unfold logUIDInfo.
  destruct additionalInfo; eexists; (split; [reflexivity | reflexivity]).
Qed.

(** X17.  With a string for [context] and an object for [additionalInfo],
    logUIDInfo returns undefined and writes one line: the tagged context
    and a new object.  In that object every property of [additionalInfo]
    is kept, also under the names [uid], [type], [isBot] and [isValid],
    whose computed values appear only when [additionalInfo] has no
    property of that name.  The objects of the heap are as they were, and
    the console holds what isBotUser wrote. *)
Theorem logUIDInfo_writes
        (s : jsstring) (uid : value) (la : loc) (a : gmap jsstring value)
        (out : list (list logged)) (w : world) :
  heap w !! la = Some a ->
  exists (l : loc) (info : gmap jsstring value) (w' : world) (bot valid : bool),
    logUIDInfo (VString s) uid (VObject la) (out, w)
    = (Normal VUndefined,
       (out ++ [[LogValue (VString (js "[UID_VALIDATOR] " ++ s ++ js ":"));
                 LogValue (VObject l)]], w'))
    /\ heap w !! l = None
    /\ heap w' = <[l := info]> (heap w)
    /\ console w' = console (exec (isBotUser uid) w)
    /\ eval (isBotUser uid) w = Normal bot
    /\ eval (isValidWebSDKUID uid) w = Normal valid
    /\ (forall k x, a !! k = Some x -> info !! k = Some x)
    /\ (a !! js "uid" = None -> info !! js "uid" = Some uid)
    /\ (a !! js "type" = None ->
        info !! js "type" = Some (VString (typeof_name (typeof uid))))
    /\ (a !! js "isBot" = None -> info !! js "isBot" = Some (VBoolean bot))
    /\ (a !! js "isValid" = None ->
        info !! js "isValid" = Some (VBoolean valid))
    /\ (forall k, is_Some (info !! k) ->
          is_Some (a !! k) \/ k = js "uid" \/ k = js "type"
          \/ k = js "isBot" \/ k = js "isValid").
Proof.
  intros Hla.
  destruct (isBotUser_returns uid w) as (bot & w1 & Hbot & Hheap).
  destruct (isValidWebSDKUID_total uid w) as [valid Hvalid].
  assert (isValidWebSDKUID uid w1 = (Normal valid, w1)) as Hvalid1
    by (rewrite (isValidWebSDKUID_run uid w w1), Hvalid; reflexivity).
  set (base := ({[ js "uid" := uid;
                   js "type" := VString (typeof_name (typeof uid));
                   js "isBot" := VBoolean bot;
                   js "isValid" := VBoolean valid ]} : gmap jsstring value)).
  exists (fresh (dom (heap w))), (a ∪ base),
         (World (<[fresh (dom (heap w)) := a ∪ base]> (heap w)) (console w1)),
         bot, valid.
  split.
  { unfold logUIDInfo.
    unfold bind at 1. unfold ret at 1.
    rewrite (bind_normal _ _ _ _ _
               (lift_run (ToString (VString s)) out w w (Normal s) eq_refl)).
    rewrite (bind_normal _ _ _ _ _ (lift_run _ _ _ _ _ Hbot)).
    rewrite (bind_normal _ _ _ _ _ (lift_run _ _ _ _ _ Hvalid1)).
    assert ((w2 <- get ;;
             object_literal
               (enumerable_own_properties w2 (VObject la) ∪ base)) w1
            = (Normal (VObject (fresh (dom (heap w)))),
               World (<[fresh (dom (heap w)) := a ∪ base]> (heap w))
                     (console w1))) as Hlit.
    { unfold bind, get, object_literal. cbn [enumerable_own_properties].
      unfold own_properties. rewrite Hheap, Hla. reflexivity. }
    rewrite (bind_normal _ _ _ _ _ (lift_run _ _ _ _ _ Hlit)).
    reflexivity. }
  split; [apply fresh_location|].
  split; [reflexivity|].
  split; [unfold exec; rewrite Hbot; reflexivity|].
  split; [unfold eval; rewrite Hbot; reflexivity|].
  split; [exact Hvalid|].
  split; [intros k x Hk; apply lookup_union_Some_l; exact Hk|].
  split; [intros Hk; rewrite lookup_union_r by exact Hk; reflexivity|].
  split; [intros Hk; rewrite lookup_union_r by exact Hk; reflexivity|].
  split; [intros Hk; rewrite lookup_union_r by exact Hk; reflexivity|].
  split; [intros Hk; rewrite lookup_union_r by exact Hk; reflexivity|].
  intros k [x Hx]. apply lookup_union_Some_raw in Hx.
  destruct Hx as [Hx | [_ Hx]]; [left; eauto|]. right.
  unfold base in Hx.
  do 3 (apply lookup_insert_Some in Hx;
        destruct Hx as [[<- _] | [_ Hx]]; [tauto|]).
  apply lookup_singleton_Some in Hx. destruct Hx as [<- _]. tauto.
Qed.

(** X18.  When [additionalInfo] is left out, the object written holds the
    four computed properties and nothing else: [uid], its [typeof],
    [isBot] and [isValid]. *)
Theorem logUIDInfo_default
        (s : jsstring) (uid : value) (out : list (list logged)) (w : world) :
  exists (l : loc) (w' : world) (bot valid : bool),
    logUIDInfo (VString s) uid VUndefined (out, w)
    = (Normal VUndefined,
       (out ++ [[LogValue (VString (js "[UID_VALIDATOR] " ++ s ++ js ":"));
                 LogValue (VObject l)]], w'))
    /\ heap w !! l = None
    /\ heap w' !! l
       = Some {[ js "uid" := uid;
                 js "type" := VString (typeof_name (typeof uid));
                 js "isBot" := VBoolean bot;
                 js "isValid" := VBoolean valid ]}
    /\ eval (isBotUser uid) w = Normal bot
    /\ eval (isValidWebSDKUID uid) w = Normal valid
    /\ (forall l0 o, heap w !! l0 = Some o -> heap w' !! l0 = Some o).
Proof.
  set (la := fresh (dom (heap w))).
  set (w0 := World (<[la := ∅]> (heap w)) (console w)).
  destruct (isBotUser_returns uid w0) as (bot & w1 & Hbot & Hheap).
  destruct (isValidWebSDKUID_total uid w) as [valid Hvalid].
  assert (isValidWebSDKUID uid w1 = (Normal valid, w1)) as Hvalid1
    by (rewrite (isValidWebSDKUID_run uid w w1), Hvalid; reflexivity).
  set (base := ({[ js "uid" := uid;
                   js "type" := VString (typeof_name (typeof uid));
                   js "isBot" := VBoolean bot;
                   js "isValid" := VBoolean valid ]} : gmap jsstring value)).
  set (l := fresh (dom (heap w0))).
  exists l, (World (<[l := base]> (heap w0)) (console w1)), bot, valid.
  assert (heap w0 !! l = None) as Hl by apply fresh_location.
  assert (heap w !! la = None) as Hla by apply fresh_location.
  split.
  { unfold logUIDInfo.
    assert (lift (object_literal ∅) (out, w)
            = (Normal (VObject la), (out, w0))) as Hdefault by reflexivity.
    rewrite (bind_normal _ _ _ _ _ Hdefault).
    rewrite (bind_normal _ _ _ _ _
               (lift_run (ToString (VString s)) out w0 w0 (Normal s) eq_refl)).
    rewrite (bind_normal _ _ _ _ _ (lift_run _ _ _ _ _ Hbot)).
    rewrite (bind_normal _ _ _ _ _ (lift_run _ _ _ _ _ Hvalid1)).
    assert ((w2 <- get ;;
             object_literal
               (enumerable_own_properties w2 (VObject la) ∪ base)) w1
            = (Normal (VObject l),
               World (<[l := base]> (heap w0)) (console w1))) as Hlit.
    { assert (own_properties w1 la = ∅) as Hempty.
      { unfold own_properties. rewrite Hheap. unfold w0. cbn [heap].
        rewrite lookup_insert_eq. reflexivity. }
      unfold bind, get, object_literal. cbn [enumerable_own_properties].
      rewrite Hempty, (left_id_L ∅ (∪)), Hheap. reflexivity. }
    rewrite (bind_normal _ _ _ _ _ (lift_run _ _ _ _ _ Hlit)).
    reflexivity. }
  split.
  { unfold w0 in Hl. cbn [heap] in Hl.
    apply lookup_insert_None in Hl. tauto. }
  split; [cbn [heap]; apply lookup_insert_eq|].
  split.
  { pose proof (isBotUser_run uid w w0) as Hrun.
    destruct (decide (typeof uid = TNumber)) as [Hn|Hn];
      [|destruct (decide (typeof uid = TString)) as [Hs|Hs]].
    - rewrite Hrun in Hbot by auto. injection Hbot as Hbot _. exact Hbot.
    - rewrite Hrun in Hbot by auto. injection Hbot as Hbot _. exact Hbot.
    - destruct (isBotUser_other uid w Hn Hs) as (wa & Ha & _).
      destruct (isBotUser_other uid w0 Hn Hs) as (wb & Hb & _).
      rewrite Hb in Hbot. injection Hbot as <- _.
      unfold eval. rewrite Ha. reflexivity. }
  split; [exact Hvalid|].
  intros l0 o Hl0. cbn [heap].
  assert (l <> l0).
  { intros <-. unfold w0 in Hl. cbn [heap] in Hl.
    apply lookup_insert_None in Hl. destruct Hl as [Hl _]. congruence. }
  rewrite lookup_insert_ne by assumption.
  unfold w0. cbn [heap]. rewrite lookup_insert_ne by congruence. exact Hl0.
Qed.

End LogUIDInfo.

(** An instance of X17: the context "join", the uid 5 and
    [{ uid: 7, room: "a" }]; the object written shows 7 under [uid]. *)
Lemma logUIDInfo_writes_witness :
  heap MoreSamples.world_info !! 1%positive
  = Some {[ js "uid" := VNumber (of_Z 7); js "room" := VString (js "a") ]}
  /\ exists (l : loc) (info : gmap jsstring value) (w' : world),
       fst (logUIDInfo (E := Samples.engine) (VString (js "join"))
              (VNumber (of_Z 5)) (VObject 1) ([], MoreSamples.world_info))
       = Normal VUndefined
       /\ heap w' !! l = Some info
       /\ info !! js "uid" = Some (VNumber (of_Z 7))
       /\ info !! js "isValid" = Some (VBoolean true).
Proof.
  assert (heap MoreSamples.world_info !! 1%positive
          = Some {[ js "uid" := VNumber (of_Z 7);
                    js "room" := VString (js "a") ]}) as Hla
    by reflexivity.
  split; [exact Hla|].
  destruct (logUIDInfo_writes (E := Samples.engine) (js "join")
              (VNumber (of_Z 5)) 1 _ [] MoreSamples.world_info Hla)
    as (l & info & w' & bot & valid & Hrun & _ & Hheap & _ & _ & Hvalid
        & Hkeep & _ & _ & _ & Hisvalid & _).
  exists l, info, w'. split; [rewrite Hrun; reflexivity|].
  split; [rewrite Hheap; apply lookup_insert_eq|].
  split; [apply Hkeep; reflexivity|].
  rewrite (Hisvalid eq_refl).
  vm_compute in Hvalid. injection Hvalid as <-. reflexivity.
Defined.

Section ValidateWarning.
Context {E : Engine}.

(** X19.  The result of validateConfiguration on an object carries a
    warning exactly when [botUid] is present, valid and not the bot;
    [uid] never gives one. *)
Theorem validateConfiguration_warns_iff
        (w : world) (l0 : loc) (o : gmap jsstring value) :
  heap w !! l0 = Some o ->
  exists r : ValidationResult,
    eval (validateConfiguration (VObject l0)) w = Normal r
    /\ (warnings r <> []
        <-> exists v, o !! js "botUid" = Some v
                      /\ eval (isValidWebSDKUID v) w = Normal true
                      /\ eval (isBotUser v) w = Normal false).
Proof.
  intros Hl0.
  destruct (validateConfiguration_two_checks l0 w)
    as (c1 & r1 & c2 & r2 & H1 & Hs1 & H2 & Hs2 & Hw2 & Hrun).
  cbv zeta in *.
  set (l := fresh (dom (heap w))) in *.
  set (w0 := World _ _) in *.
  assert (own_properties w0 l0 = o) as Hown
    by (apply own_properties_after_copy; exact Hl0).
  unfold eval at 1. rewrite Hrun. eexists. split; [reflexivity|].
  assert (forall r,
             r = match c1 with
                 | Normal _ => match c2 with
                               | Normal _ => r2
                               | Throw e => caught r2 e
                               end
                 | Throw e => caught r1 e
                 end -> warnings r = warnings r1) as Hfinal.
  { intros r ->. destruct c1 as [[]|e1]; [|reflexivity].
    destruct c2 as [[]|e2]; [exact Hw2|].
    cbn [warnings caught assign_isValid add_error]. exact Hw2. }
  rewrite (Hfinal _ eq_refl). clear Hfinal.
  destruct (o !! js "botUid") as [v|] eqn:Hv.
  - destruct (isValidWebSDKUID_total v w) as [[|] Hbv].
    + pose proof (valid_number_or_string v w Hbv) as Hty.
      destruct (isBotUser_total v w Hty) as [[|] Hbb].
      * rewrite (validateConfiguration_botUid_is_bot l0 v) in H1
          by (first [rewrite Hown; exact Hv
                    | rewrite (isValidWebSDKUID_run v w w0), Hbv; reflexivity
                    | rewrite (isBotUser_run v w w0 Hty), Hbb; reflexivity]).
        injection H1 as <- <-. split; [intros Hw; contradiction Hw; reflexivity|].
        intros (v' & [= <-] & _ & Hnot). congruence.
      * destruct (ToString_run v w w0 Hty) as (shown & _ & Hshown).
        rewrite (validateConfiguration_botUid_warns l0 v shown) in H1
          by (first [rewrite Hown; exact Hv
                    | rewrite (isValidWebSDKUID_run v w w0), Hbv; reflexivity
                    | rewrite (isBotUser_run v w w0 Hty), Hbb; reflexivity
                    | exact Hshown]).
        injection H1 as <- <-.
        split; [intros _; exists v; auto | intros _; discriminate].
    + rewrite (validateConfiguration_botUid_invalid l0 v) in H1
        by (first [rewrite Hown; exact Hv
                  | rewrite (isValidWebSDKUID_run v w w0), Hbv; reflexivity]).
      destruct (ToString v w0) as [[shown|e] w']; injection H1 as <- <- _;
        (split; [intros Hw; contradiction Hw; reflexivity|]);
        intros (v' & [= <-] & Hyes & _); congruence.
  - rewrite validateConfiguration_botUid_absent in H1
      by (rewrite Hown; exact Hv).
    injection H1 as <- <-. split; [intros Hw; contradiction Hw; reflexivity|].
    intros (v' & Hno & _). discriminate Hno.
Qed.

End ValidateWarning.

(** An instance of X19: [{ botUid: 999, uid: -1 }], where the invalid
    [uid] adds an error and no warning. *)
Lemma validateConfiguration_warns_iff_witness :
  heap Samples.world_bot999_uidm1 !! 1%positive
  = Some {[ js "botUid" := VNumber (of_Z 999);
            js "uid" := VNumber (of_Z (-1)) ]}
  /\ exists r : ValidationResult,
       eval (validateConfiguration (E := Samples.engine) (VObject 1))
         Samples.world_bot999_uidm1 = Normal r
       /\ warnings r <> [].
Proof.
  assert (heap Samples.world_bot999_uidm1 !! 1%positive
          = Some {[ js "botUid" := VNumber (of_Z 999);
                    js "uid" := VNumber (of_Z (-1)) ]}) as Hl0
    by reflexivity.
  split; [exact Hl0|].
  destruct (validateConfiguration_warns_iff (E := Samples.engine)
              Samples.world_bot999_uidm1 1 _ Hl0) as (r & Hrun & Hiff).
  exists r. split; [exact Hrun|].
  apply Hiff. exists (VNumber (of_Z 999)).
  repeat split; vm_compute; reflexivity.
Defined.

(** An instance of X18: the context "join" and the uid 5, in a world whose
    heap holds an object at location 1, which is kept. *)
Lemma logUIDInfo_default_witness :
  heap MoreSamples.world_info !! 1%positive
  = Some {[ js "uid" := VNumber (of_Z 7); js "room" := VString (js "a") ]}
  /\ exists (l : loc) (w' : world),
       fst (logUIDInfo (E := Samples.engine) (VString (js "join"))
              (VNumber (of_Z 5)) VUndefined ([], MoreSamples.world_info))
       = Normal VUndefined
       /\ heap w' !! l
          = Some {[ js "uid" := VNumber (of_Z 5);
                    js "type" := VString (js "number");
                    js "isBot" := VBoolean false;
                    js "isValid" := VBoolean true ]}
       /\ heap w' !! 1%positive
          = Some {[ js "uid" := VNumber (of_Z 7);
                    js "room" := VString (js "a") ]}.
Proof.
  assert (heap MoreSamples.world_info !! 1%positive
          = Some {[ js "uid" := VNumber (of_Z 7);
                    js "room" := VString (js "a") ]}) as Hla
    by reflexivity.
  split; [exact Hla|].
  destruct (logUIDInfo_default (E := Samples.engine) (js "join")
              (VNumber (of_Z 5)) [] MoreSamples.world_info)
    as (l & w' & bot & valid & Hrun & _ & Hinfo & Hbot & Hvalid & Hkept).
  exists l, w'. split; [rewrite Hrun; reflexivity|].
  split; [|apply Hkept; exact Hla].
  rewrite Hinfo.
  vm_compute in Hbot. injection Hbot as <-.
  vm_compute in Hvalid. injection Hvalid as <-.
  reflexivity.
Defined.


(* ===================================================================== *)
(** ** Failures that reach the caller *)
(* ===================================================================== *)

Section NotContained.
Context {E : Engine}.

(** C8.  The code where it lets a failure through.  logUIDInfo has no
    [try]: called with a symbol for [context] it throws the TypeError of
    the conversion to a string.  In validateConfiguration the object
    literal [{ ...config }] is evaluated before the [try] is entered: the
    function is that literal followed by the guarded block, and when the
    evaluation of the literal throws (a getter of [config] that throws,
    the trap of a proxy), what follows it does not run and the error is
    the completion of the call. *)
Theorem failures_not_all_contained (w : world) :
  (forall (id : positive) (uid additionalInfo : value)
          (out : list (list logged)),
      eval (logUIDInfo (VSymbol id) uid additionalInfo) (out, w)
      = Throw (TypeError SymbolToString))
  /\ (forall config : value,
        validateConfiguration config
        = (copy <- object_spread config ;;
           with_local (initial_result copy)
             (try_catch (validateConfiguration_try config)
                        validateConfiguration_catch)))
  /\ (forall (config : value) (e : error),
        (copy <- throw e ;;
         with_local (initial_result copy)
           (try_catch (validateConfiguration_try config)
                      validateConfiguration_catch)) w
        = (Throw e, w)).
Proof.
  split; [|split].
  - intros id uid additionalInfo out. unfold eval, logUIDInfo.
    destruct additionalInfo; reflexivity.
  - intros config. reflexivity.
  - intros config e. reflexivity.
Qed.

End NotContained.
